(** * libhxl-python: the count command and the sort filter

  A shallow embedding of [hxl/commands/hxlcount.py] and
  [hxl/old_filters/sort.py], with the properties of the counting and
  sorting stages stated over it.

  Python values are modelled as follows: [str] is [string] (a sequence of
  bytes compared by code), a list or tuple of strings is [list string],
  a [dict] is an association list in insertion order, the caller's
  mutable list lives in a store of list objects, and an exception is the
  [Raise] branch of [result]. *)

From Stdlib Require Import String Ascii List ZArith Lia Bool Permutation Sorted.
From stdpp Require Import base option list sorting gmap strings.

Local Open Scope string_scope.
Local Open Scope list_scope.

(** ** Python strings *)

Module PyStr.

(** [c.isdigit()] for an ASCII character. *)
Definition is_digit (c : ascii) : bool :=
  (48 <=? nat_of_ascii c)%nat && (nat_of_ascii c <=? 57)%nat.

Definition is_lower (c : ascii) : bool :=
  (97 <=? nat_of_ascii c)%nat && (nat_of_ascii c <=? 122)%nat.

Definition is_upper (c : ascii) : bool :=
  (65 <=? nat_of_ascii c)%nat && (nat_of_ascii c <=? 90)%nat.

Definition upper_char (c : ascii) : ascii :=
  if is_lower c then ascii_of_nat (nat_of_ascii c - 32) else c.

Definition lower_char (c : ascii) : ascii :=
  if is_upper c then ascii_of_nat (nat_of_ascii c + 32) else c.

(** [s.upper()] on a byte string: the letters a-z are mapped to A-Z. *)
Fixpoint upper (s : string) : string :=
  match s with
  | EmptyString => EmptyString
  | String c s' => String (upper_char c) (upper s')
  end.

Fixpoint lower (s : string) : string :=
  match s with
  | EmptyString => EmptyString
  | String c s' => String (lower_char c) (lower s')
  end.

(** [s.startswith(p)]. *)
Fixpoint startswith (s p : string) : bool :=
  match p, s with
  | EmptyString, _ => true
  | String _ _, EmptyString => false
  | String b p', String a s' => Ascii.eqb a b && startswith s' p'
  end.

Fixpoint drop (n : nat) (s : string) : string :=
  match n, s with
  | O, _ => s
  | S _, EmptyString => EmptyString
  | S n', String _ s' => drop n' s'
  end.

(** [s.endswith(suffix)]. *)
Definition endswith (s suffix : string) : bool :=
  (String.length suffix <=? String.length s)%nat
  && String.eqb (drop (String.length s - String.length suffix) s) suffix.

Fixpoint zeros (n : nat) : string :=
  match n with
  | O => EmptyString
  | S n' => String "0" (zeros n')
  end.

(** [s.zfill(width)]: a string at least [width] long is returned as it
    is; otherwise zeros are inserted on the left, after a leading sign. *)
Definition zfill (width : nat) (s : string) : string :=
  if (width <=? String.length s)%nat then s
  else
    let fill := zeros (width - String.length s) in
    match s with
    | String "+" rest => String "+" (fill ++ rest)
    | String "-" rest => String "-" (fill ++ rest)
    | _ => fill ++ s
    end.

Fixpoint last_char (s : string) : option ascii :=
  match s with
  | EmptyString => None
  | String c EmptyString => Some c
  | String _ s' => last_char s'
  end.

(** Truth value of a string: the empty string is false. *)
Definition truthy (s : string) : bool :=
  match s with
  | EmptyString => false
  | String _ _ => true
  end.

End PyStr.

(** ** Python's ordering of values

  [sorted] compares keys with [<] only; sequences are compared by
  looking for the first position where the two differ (with [==]) and
  comparing there (with [<]); a proper prefix is smaller. *)

Class PyOrd (K : Type) := {
py_eqb : K -> K -> bool;
py_ltb : K -> K -> bool
}.

Class PyOrdLaws (K : Type) `{PyOrd K} := {
py_eqb_eq : forall x y : K, py_eqb x y = true <-> x = y;
py_ltb_irrefl : forall x : K, py_ltb x x = false;
py_ltb_trans : forall x y z : K,
    py_ltb x y = true -> py_ltb y z = true -> py_ltb x z = true;
py_ltb_total : forall x y : K,
    py_ltb x y = false -> py_ltb y x = false -> x = y
}.

#[export] Instance str_ord : PyOrd string :=
{| py_eqb := String.eqb; py_ltb := String.ltb |}.

#[export] Instance int_ord : PyOrd nat :=
{| py_eqb := Nat.eqb; py_ltb := Nat.ltb |}.

Fixpoint seq_eqb {K} `{PyOrd K} (a b : list K) : bool :=
match a, b with
| [], [] => true
| x :: a', y :: b' => py_eqb x y && seq_eqb a' b'
| _, _ => false
end.

Fixpoint seq_ltb {K} `{PyOrd K} (a b : list K) : bool :=
match a, b with
| [], [] => false
| [], _ :: _ => true
| _ :: _, [] => false
| x :: a', y :: b' => if py_eqb x y then seq_ltb a' b' else py_ltb x y
end.

#[export] Instance seq_ord {K} `{PyOrd K} : PyOrd (list K) :=
{| py_eqb := seq_eqb; py_ltb := seq_ltb |}.

(** A 2-tuple, as yielded by [dict.items()]. *)
#[export] Instance pair_ord {K1 K2} `{PyOrd K1} `{PyOrd K2} : PyOrd (K1 * K2) :=
{| py_eqb := fun a b => py_eqb (fst a) (fst b) && py_eqb (snd a) (snd b);
   py_ltb := fun a b =>
     if py_eqb (fst a) (fst b) then py_ltb (snd a) (snd b)
     else py_ltb (fst a) (fst b) |}.

(** ** Exceptions *)

Inductive exn := ValueError | TypeError.

Inductive result (A : Type) :=
| Ok (a : A)
| Raise (e : exn).

Arguments Ok {A} a.
Arguments Raise {A} e.

Definition bind {A B} (c : result A) (k : A -> result B) : result B :=
  match c with
  | Ok a => k a
  | Raise e => Raise e
  end.

Notation "x <- c ;; k" := (bind c (fun x => k))
  (at level 100, c at next level, right associativity).

(** A list comprehension [[f(x) for x in l]]: the elements are evaluated
    from left to right and the first exception ends the evaluation. *)
Fixpoint comprehension {A B} (f : A -> result B) (l : list A) : result (list B) :=
  match l with
  | [] => Ok []
  | x :: l' => y <- f x ;; ys <- comprehension f l' ;; Ok (y :: ys)
  end.

(** ** The built-in [sorted]

    [sorted(iterable, key=..., reverse=...)] computes the key of every
    element first, sorts the decorated elements by key with a stable
    sort that only uses [<] on keys, and with [reverse=True] reverses
    the list before and after sorting, which keeps elements with equal
    keys in their original order.  The stable sort is written as an
    insertion sort: an element is placed before the first element of the
    sorted tail whose key is not smaller than its own. *)

Section Sorted.

Context {K A : Type} `{PyOrd K}.

Fixpoint insert_keyed (x : K * A) (l : list (K * A)) : list (K * A) :=
  match l with
  | [] => [x]
  | y :: l' =>
      if py_ltb (fst y) (fst x) then y :: insert_keyed x l' else x :: y :: l'
  end.

Fixpoint sort_keyed (l : list (K * A)) : list (K * A) :=
  match l with
  | [] => []
  | x :: l' => insert_keyed x (sort_keyed l')
  end.

Definition sort_decorated (reverse : bool) (keyed : list (K * A)) : list A :=
  let keyed := if reverse then List.rev keyed else keyed in
  let keyed := sort_keyed keyed in
  let keyed := if reverse then List.rev keyed else keyed in
  map snd keyed.

Definition decorate (key : A -> result K) (x : A) : result (K * A) :=
  k <- key x ;; Ok (k, x).

Definition sorted (key : A -> result K) (reverse : bool) (xs : list A)
  : result (list A) :=
  keyed <- comprehension (decorate key) xs ;;
  Ok (sort_decorated reverse keyed).

End Sorted.

(** The test "the key of [x] is [k]", and the decorated lists whose
    first components are the keys of the second. *)
Definition has_key {K A} `{PyOrd K} (key : A -> result K) (k : K) (x : A)
  : bool :=
  match key x with
  | Ok k' => py_eqb k k'
  | Raise _ => false
  end.

Definition well_keyed {K A} (key : A -> result K) (l : list (K * A)) : Prop :=
  List.Forall (fun p => key (snd p) = Ok (fst p)) l.

(** [sorted(xs)] with neither a key function nor [reverse]. *)
Definition sorted_plain {A} `{PyOrd A} (xs : list A) : list A :=
  sort_decorated false (map (fun x => (x, x)) xs).

(** Orders of a list of keys: no key is followed by a smaller one, no
    key by a larger one, every key only by larger ones. *)
Definition key_le {K} `{PyOrd K} (a b : K) : Prop := py_ltb b a = false.

Definition ascending {K} `{PyOrd K} (keys : list K) : Prop :=
  StronglySorted key_le keys.

Definition descending {K} `{PyOrd K} (keys : list K) : Prop :=
  StronglySorted (fun a b => key_le b a) keys.

Definition strictly_ascending {K} `{PyOrd K} (keys : list K) : Prop :=
  StronglySorted (fun a b => py_ltb a b = true) keys.

(** ** A mutable mapping in insertion order ([dict]) *)

Section Dict.

Context {K V : Type} `{PyOrd K}.

(** [d.get(key)] *)
Fixpoint dict_get (key : K) (d : list (K * V)) : option V :=
  match d with
  | [] => None
  | (k, v) :: d' => if py_eqb key k then Some v else dict_get key d'
  end.

(** [d[key] = v]: an existing key keeps its place, a new one goes last. *)
Fixpoint dict_set (key : K) (v : V) (d : list (K * V)) : list (K * V) :=
  match d with
  | [] => [(key, v)]
  | (k, v0) :: d' =>
      if py_eqb key k then (k, v) :: d' else (k, v0) :: dict_set key v d'
  end.

End Dict.

(** ** The data model of [hxl.model] *)

(** Modelled from the spec: [hxl.model] is not part of the tree.  A
    column has a raw header text, an optional hashtag and an ordered set
    of attributes. *)
Record Column := {
  header : string;
  column_tag : option string;
  attributes : list string
}.

(** Modelled from the spec: a row is an ordered sequence of values
    aligned positionally with the columns of its dataset. *)
Record Row := {
  row_columns : list Column;
  values : list string
}.

(** Modelled from the spec: a tag pattern has a required hashtag, a set
    of required attributes and a set of excluded attributes.  (The flag
    for exact attribute matching of the spec's data model takes no part
    in the matching contract and is left out.) *)
Record TagPattern := {
  tag : string;
  include_attributes : list string;
  exclude_attributes : list string
}.

(** What a lookup in a row yields: a string or the indicator that no
    column matched, which is not a string. *)
Inductive pyval :=
| PyNone
| PyStr (s : string).

Definition has_attribute (c : Column) (a : string) : bool :=
  existsb (String.eqb a) (attributes c).

(** Modelled from the spec: [match(column)] is true iff the column's
    hashtag equals the pattern's hashtag, all required attributes are
    present on the column and none of the excluded ones is. *)
Definition pattern_match (p : TagPattern) (c : Column) : bool :=
  match column_tag c with
  | Some t =>
      String.eqb (tag p) t
      && forallb (has_attribute c) (include_attributes p)
      && negb (existsb (has_attribute c) (exclude_attributes p))
  | None => false
  end.

Fixpoint first_value (test : Column -> bool) (cols : list Column)
  (vals : list string) : pyval :=
  match cols, vals with
  | c :: cols', v :: vals' =>
      if test c then PyStr v else first_value test cols' vals'
  | _, _ => PyNone
  end.

(** Modelled from the spec: [getValue(row)] scans the row's columns in
    schema order and returns the value under the first matching column,
    or the not-present indicator if no column matches. *)
Definition pattern_get_value (p : TagPattern) (row : Row) : pyval :=
  first_value (pattern_match p) (row_columns row) (values row).

Module Dataset.

(** Modelled from the spec: a dataset has a column schema and produces
    one forward, single-pass sequence of rows; the schema does not
    change during the pass. *)
Record t := {
  columns : list Column;
  rows : list Row
}.

(** Iterating drains the row sequence. *)
Definition __iter__ (d : t) : list Row * t :=
  (rows d, {| columns := columns d; rows := [] |}).

End Dataset.

(** Modelled from the spec: [hxl.common.pattern_list] normalises a list
    of tags into a list of parsed patterns; on patterns that are already
    parsed it returns them as they are. *)
Definition pattern_list (tags : list TagPattern) : list TagPattern := tags.

(** ** [hxl/commands/hxlcount.py] *)

(** The list objects of the caller, by reference. *)
Abbreviation ref := positive.
Abbreviation store := (gmap positive (list string)).

(** A cell handed to the CSV writer: a string, or the integer count. *)
Inductive cell :=
| CStr (s : string)
| CInt (n : nat).

Section Count.

(** [row.get(tag)] of the reader's rows: the value of the first column
    carrying the tag, or [None] here for the indicator [False] there.
    The reader is not part of the tree, so the lookup is a parameter. *)
Variable row_get : Row -> string -> option string.

(** The inner loop over the tags: [value is not False] keeps the value. *)
Fixpoint extract_values (row : Row) (tags : list string) : list string :=
  match tags with
  | [] => []
  | tag :: tags' =>
      match row_get row tag with
      | Some value => value :: extract_values row tags'
      | None => extract_values row tags'
      end
  end.

(** The body of the loop over the rows. *)
Definition count_row (tags : list string) (stats : list (list string * nat))
  (row : Row) : list (list string * nat) :=
  let values := extract_values row tags in
  match values with
  | [] => stats
  | _ :: _ =>
      let key := values in
      match dict_get key stats with
      | Some (S n) => dict_set key (S n + 1) stats
      | _ => dict_set key 1 stats
      end
  end.

Definition count_rows (tags : list string) (input : list Row)
  : list (list string * nat) :=
  fold_left (count_row tags) input [].

(** The number of rows of [input] whose extracted values are [key]. *)
Definition occurrences (tags : list string) (input : list Row)
  (key : list string) : nat :=
  List.length
    (List.filter (fun row => py_eqb (extract_values row tags) key) input).

(** Truth value of a list: the empty list is false. *)
Definition truthy_list {X} (l : list X) : bool :=
  match l with
  | [] => false
  | _ :: _ => true
  end.

(** A row with no value under any of the tags. *)
Definition fully_absent (tags : list string) (row : Row) : bool :=
  forallb (fun tag => match row_get row tag with
                      | Some _ => false
                      | None => true
                      end) tags.

(** One written data row: the values of the tuple, then the count. *)
Definition aggregate_row (aggregate : list string * nat) : list cell :=
  map CStr (fst aggregate) ++ [CInt (snd aggregate)].

(** [hxlcount(input, output, tags)]: [input] is the row sequence the
    reader produces, [tags] the reference to the caller's list, and the
    result is the rows written to [output] with the store afterwards.
    The lookup only fails for a reference that names no list. *)
Definition hxlcount (input : list Row) (tags : ref) (st : store)
  : option (list (list cell) * store) :=
  match st !! tags with
  | None => None
  | Some tag_list =>
      let stats := count_rows tag_list input in
      let tag_list := tag_list ++ ["#x_total_num"] in
      let st := <[tags := tag_list]> st in
      Some (map CStr tag_list :: map aggregate_row (sorted_plain stats), st)
  end.

End Count.

(** ** [hxl/old_filters/sort.py] *)

(** The calendar date of a [datetime]. *)
Record date := {
  year : nat;
  month : nat;
  day : nat
}.

Definition digit_char (d : nat) : ascii := ascii_of_nat (48 + d).

(** The last [width] decimal digits of [n], most significant first. *)
Fixpoint fixed_digits (width n : nat) : string :=
  match width with
  | O => EmptyString
  | S w => String (digit_char ((n / 10 ^ w) mod 10)) (fixed_digits w n)
  end.

Fixpoint strip_leading_zeros (s : string) : string :=
  match s with
  | String "0" s' => strip_leading_zeros s'
  | _ => s
  end.

Definition or_zero (s : string) : string :=
  if PyStr.truthy s then s else "0".

(** [%Y] as the C library of Linux prints it, which [strftime] hands
    the format to: the year in decimal without padding, so that a year
    below 1000 has fewer than four digits.  Years of a [datetime] are
    in 1..9999. *)
Definition year_digits (y : nat) : string :=
  or_zero (strip_leading_zeros (fixed_digits 4 y)).

(** [d.strftime('%Y-%m-%d')]: the year as [%Y] prints it, then the month
    and the day on two digits each, zero-padded. *)
Definition strftime_Ymd (d : date) : string :=
  year_digits (year d) ++ "-" ++ fixed_digits 2 (month d) ++ "-"
  ++ fixed_digits 2 (day d).

(** The dates a [datetime] can hold (leaving the lengths of the months
    aside), those among them whose year has four digits, and the
    chronological order. *)
Definition valid_date (d : date) : Prop :=
  1 <= year d < 10 ^ 4 /\ 1 <= month d <= 12 /\ 1 <= day d <= 31.

Definition four_digit_year (d : date) : Prop := 10 ^ 3 <= year d.

Definition date_compare (d1 d2 : date) : comparison :=
  match Nat.compare (year d1) (year d2) with
  | Eq =>
      match Nat.compare (month d1) (month d2) with
      | Eq => Nat.compare (day d1) (day d2)
      | c => c
      end
  | c => c
  end.

Module SortFilter.

Record t := {
  source : Dataset.t;
  sort_tags : list TagPattern;
  reverse : bool;
  _iter : option (list Row)
}.

Definition __init__ (source : Dataset.t) (tags : list TagPattern)
  (reverse : bool) : t :=
  {| source := source;
     sort_tags := pattern_list tags;
     reverse := reverse;
     _iter := None |}.

(** The [columns] property. *)
Definition columns (self : t) : list Column :=
  Dataset.columns (source self).

Section Iter.

(** [float_repr s] is [Some r] when [float(s)] succeeds on the string [s]
    and [str] of the float is [r], and [None] when [float(s)] raises
    [ValueError]. *)
Variable float_repr : string -> option string.

(** [date_parse s] is the calendar date of [dateutil.parser.parse(s)],
    and [None] when the parser raises [ValueError] on the string [s]. *)
Variable date_parse : string -> option date.

(** [str(float(v))]; [float] of the not-present indicator is a
    [TypeError]. *)
Definition str_float (v : pyval) : result string :=
  match v with
  | PyNone => Raise TypeError
  | PyStr s =>
      match float_repr s with
      | Some r => Ok r
      | None => Raise ValueError
      end
  end.

(** [dateutil.parser.parse(v).strftime('%Y-%m-%d')]; the parser refuses
    what is not a string. *)
Definition parse_strftime (v : pyval) : result string :=
  match v with
  | PyNone => Raise TypeError
  | PyStr s =>
      match date_parse s with
      | Some d => Ok (strftime_Ymd d)
      | None => Raise ValueError
      end
  end.

(** [raw_value.upper() if raw_value else ''] *)
Definition upper_or_empty (raw_value : pyval) : string :=
  match raw_value with
  | PyNone => ""
  | PyStr s => if PyStr.truthy s then PyStr.upper s else ""
  end.

(** The closure [get_value] of [make_key], for the row of [make_key]. *)
Definition get_value (row : Row) (pattern : TagPattern) : result string :=
  let raw_value := pattern_get_value pattern row in
  raw_value <-
    (if PyStr.endswith (tag pattern) "_num"
        || PyStr.endswith (tag pattern) "_deg"
     then
       match str_float raw_value with
       | Ok r => Ok (PyStr (PyStr.zfill 15 r))
       | Raise ValueError => Ok raw_value
       | Raise e => Raise e
       end
     else if PyStr.endswith (tag pattern) "_date"
     then r <- parse_strftime raw_value ;; Ok (PyStr r)
     else Ok raw_value) ;;
  Ok (upper_or_empty raw_value).

(** The closure [make_key] of [__iter__]. *)
Definition make_key (self : t) (row : Row) : result (list string) :=
  match sort_tags self with
  | _ :: _ => comprehension (get_value row) (sort_tags self)
  | [] => Ok (values row)
  end.

(** [__iter__]: the rows in sorted order, or the exception raised while
    the keys were computed, and the filter afterwards, whose source has
    been read to its end. *)
Definition __iter__ (self : t) : result (list Row) * t :=
  let '(materialized, source') := Dataset.__iter__ (source self) in
  (sorted (make_key self) (reverse self) materialized,
   {| source := source';
      sort_tags := sort_tags self;
      reverse := reverse self;
      _iter := _iter self |}).

End Iter.

End SortFilter.

(** ** Instances of the parameters, used in the examples *)

(** A reader's lookup by hashtag alone. *)
Definition get_by_hashtag (row : Row) (tag : string) : option string :=
  match
    first_value
      (fun c => match column_tag c with
                | Some t => String.eqb t tag
                | None => false
                end)
      (row_columns row) (values row)
  with
  | PyStr v => Some v
  | PyNone => None
  end.

Fixpoint span_digits (s : string) : string * string :=
  match s with
  | String c s' =>
      if PyStr.is_digit c
      then let '(ds, rest) := span_digits s' in (String c ds, rest)
      else (EmptyString, s)
  | EmptyString => (EmptyString, EmptyString)
  end.

Fixpoint strip_trailing_zeros (s : string) : string :=
  match s with
  | EmptyString => EmptyString
  | String c s' =>
      let r := strip_trailing_zeros s' in
      if Ascii.eqb c "0" && negb (PyStr.truthy r) then EmptyString
      else String c r
  end.

(** [str(float(s))] for a plain decimal literal: an optional sign,
    digits, and an optional fraction, of at most twelve significant
    digits, below [1e12] and not below [1e-4] unless zero.  There the
    float prints as the literal without superfluous zeros, with at least
    one digit on each side of the point.  Every other text is answered
    with [None]: the instance is meant for such literals only. *)
Definition decimal_float_repr (s : string) : option string :=
  let '(negative, body) :=
    match s with
    | String "-" r => (true, r)
    | String "+" r => (false, r)
    | _ => (false, s)
    end in
  let '(int_part, rest) := span_digits body in
  let '(frac_part, rest) :=
    match rest with
    | String "." r => span_digits r
    | _ => (EmptyString, rest)
    end in
  if negb (PyStr.truthy rest)
     && (0 <? String.length int_part + String.length frac_part)%nat
  then
    let int_part := strip_leading_zeros int_part in
    let frac_part := strip_trailing_zeros frac_part in
    if (String.length int_part + String.length frac_part <=? 12)%nat
       && (PyStr.truthy int_part
           || negb (PyStr.startswith frac_part "0000"))
    then Some ((if negative then "-" else "")
               ++ or_zero int_part ++ "." ++ or_zero frac_part)%string
    else None
  else None.

(** The decimal numeral of a natural number below [10 ^ 12]. *)
Definition decimal (n : nat) : string :=
  or_zero (strip_leading_zeros (fixed_digits 12 n)).

Fixpoint all_digits (s : string) : bool :=
  match s with
  | EmptyString => true
  | String c s' => PyStr.is_digit c && all_digits s'
  end.

Definition digit_value (c : ascii) : option nat :=
  if PyStr.is_digit c then Some (nat_of_ascii c - 48) else None.

Fixpoint number_value (acc : nat) (s : list ascii) : option nat :=
  match s with
  | [] => Some acc
  | c :: s' =>
      match digit_value c with
      | Some d => number_value (10 * acc + d) s'
      | None => None
      end
  end.

Definition is_leap (y : nat) : bool :=
  ((y mod 4 =? 0) && negb (y mod 100 =? 0) || (y mod 400 =? 0))%nat.

Definition days_in_month (y m : nat) : nat :=
  match m with
  | 2 => if is_leap y then 29 else 28
  | 4 | 6 | 9 | 11 => 30
  | _ => 31
  end.

(** An instance of the parser for the texts of the examples, on which it
    answers as [dateutil.parser.parse] does: a calendar date written
    [YYYY-MM-DD] is read as that date, and a text of letters that name
    nothing, such as ["unknown"], is refused.  The parser of the library
    reads many more forms (["15 Jan"], ["2020-1-5"]); the examples use
    none of them, and nothing is proved from the answer of the instance
    on such a text. *)
Definition iso_date_parse (s : string) : option date :=
  match list_ascii_of_string s with
  | [y1; y2; y3; y4; dash1; m1; m2; dash2; d1; d2] =>
      match number_value 0 [y1; y2; y3; y4], number_value 0 [m1; m2],
            number_value 0 [d1; d2] with
      | Some y, Some m, Some d =>
          if Ascii.eqb dash1 "-" && Ascii.eqb dash2 "-"
             && (1 <=? y)%nat && (1 <=? m)%nat && (m <=? 12)%nat
             && (1 <=? d)%nat && (d <=? days_in_month y m)%nat
          then Some {| year := y; month := m; day := d |}
          else None
      | _, _, _ => None
      end
  | _ => None
  end.

(** ** Example data *)

Definition example_columns : list Column :=
  [ {| header := "Sector"; column_tag := Some "#sector"; attributes := [] |};
    {| header := "Region"; column_tag := Some "#adm1"; attributes := [] |};
    {| header := "Notes"; column_tag := None; attributes := [] |} ].

Definition example_row (vals : list string) : Row :=
  {| row_columns := example_columns; values := vals |}.

(** Three complete rows, one row cut short after its first value and one
    row without any value. *)
Definition example_input : list Row :=
  [ example_row ["WASH"; "B"; "x"];
    example_row ["WASH"; "A"; "y"];
    example_row [];
    example_row ["Health"];
    example_row ["WASH"; "A"; "z"] ].

Definition example_tags : list string := ["#sector"; "#adm1"].

Definition example_store : store := {[ 1%positive := example_tags ]}.

(** The test of the first branch of [get_value]. *)
Definition numeric_suffix (p : TagPattern) : bool :=
  PyStr.endswith (tag p) "_num" || PyStr.endswith (tag p) "_deg".

(** The order of Python sequences, spelled out: the two lists agree on a
    common prefix, after which the first list ends and the second does
    not, or the next component of the first is the smaller string. *)
Definition lex_lt (a b : list string) : Prop :=
  exists common a' b',
    a = common ++ a' /\ b = common ++ b'
    /\ match a', b' with
       | [], _ :: _ => True
       | x :: _, y :: _ => String.ltb x y = true
       | _, [] => False
       end.

Definition sort_columns : list Column :=
  [ {| header := "Organisation"; column_tag := Some "#org"; attributes := [] |};
    {| header := "Value"; column_tag := Some "#value_num"; attributes := [] |};
    {| header := "Reported"; column_tag := Some "#report_date";
       attributes := [] |} ].

Definition sort_row (vals : list string) : Row :=
  {| row_columns := sort_columns; values := vals |}.

Definition sort_source (rows : list Row) : Dataset.t :=
  {| Dataset.columns := sort_columns; Dataset.rows := rows |}.

Definition hashtag (t : string) : TagPattern :=
  {| tag := t; include_attributes := []; exclude_attributes := [] |}.

(** A row with a value in its first column only, by which the numeric
    and date patterns find their columns without a value. *)
Definition short_row : Row := sort_row ["UNICEF"].

(** Rows that differ only in the columns after [#org]. *)
Definition tied_rows : list Row :=
  [ sort_row ["Oxfam"; "3"; "2020-01-15"];
    sort_row ["OXFAM"; "1"; "2019-12-01"];
    sort_row ["ACF"; "2"; "2021-06-30"] ].

(** Rows with three different organisations. *)
Definition distinct_rows : list Row :=
  [ sort_row ["Oxfam"; "3"; "2020-01-15"];
    sort_row ["ACF"; "2"; "2021-06-30"];
    sort_row ["MSF"; "1"; "2019-12-01"] ].

Definition numeric_rows (vals : list string) : list Row :=
  map (fun v => sort_row ["org"; v; "2020-01-01"]) vals.

Definition dated_rows (dates : list string) : list Row :=
  map (fun v => sort_row ["org"; "1"; v]) dates.

(** Example filters, with the instances of the parameters. *)
Definition tied_filter (reverse : bool) : SortFilter.t :=
  SortFilter.__init__ (sort_source tied_rows) [hashtag "#org"] reverse.

Definition dated_filter (rows : list Row) : SortFilter.t :=
  SortFilter.__init__ (sort_source rows) [hashtag "#report_date"] false.

Definition valued_filter (rows : list Row) : SortFilter.t :=
  SortFilter.__init__ (sort_source rows) [hashtag "#value_num"] false.

Definition example_key : Row -> result (list string) :=
  SortFilter.make_key decimal_float_repr iso_date_parse (tied_filter false).

Definition example_iter : SortFilter.t -> result (list Row) * SortFilter.t :=
  SortFilter.__iter__ decimal_float_repr iso_date_parse.

(** ** Further definitions for the count command *)

(** The count recorded for a tuple after the loop, 0 when the tuple has
    no entry. *)
Definition recorded_count (row_get : Row -> string -> option string)
  (tags : list string) (input : list Row) (key : list string) : nat :=
  default 0 (dict_get key (count_rows row_get tags input)).

(** A row with a single column. *)
Definition single_row (hashtag value : string) : Row :=
  {| row_columns :=
       [ {| header := ""; column_tag := Some hashtag; attributes := [] |} ];
     values := [value] |}.

(** Two lists of one caller: the example tags with [#org] between them,
    and the example tags. *)
Definition two_lists : store :=
  {[ 1%positive := ["#sector"; "#org"; "#adm1"]; 2%positive := example_tags ]}.

(** ** Further definitions for the sort filter *)

(** A filter that has yielded [out], seen as the source of another
    filter: its columns and the rows it yields. *)
Definition as_source (self : SortFilter.t) (out : list Row) : Dataset.t :=
  {| Dataset.columns := SortFilter.columns self; Dataset.rows := out |}.

(** [fixed_digits] on binary numbers. *)
Fixpoint fixed_digits_N (width : nat) (n : N) : string :=
  match width with
  | O => EmptyString
  | S w =>
      String (digit_char (N.to_nat ((n / 10 ^ N.of_nat w) mod 10)%N))
        (fixed_digits_N w n)
  end.

(** The decimal numeral of a number below [10 ^ 12]. *)
Definition numeral (n : N) : string :=
  or_zero (strip_leading_zeros (fixed_digits_N 12 n)).

(** The key of a row without any value under the tags, and the rows
    that have no value, or an empty one, under every tag. *)
Definition blank_key (tags : list TagPattern) : list string :=
  map (fun _ => EmptyString) tags.

Definition blank_under (tags : list TagPattern) (row : Row) : Prop :=
  forall p, In p tags ->
    pattern_get_value p row = PyNone \/ pattern_get_value p row = PyStr "".

(** Rows for a date filter: a good date, a date the parser refuses and
    a row without a date. *)
Definition faulty_rows : list Row :=
  [ sort_row ["Oxfam"; "3"; "2020-01-15"];
    sort_row ["ACF"; "2"; "unknown"];
    short_row ].

(** Rows of which the second and the third have no organisation. *)
Definition blank_rows : list Row :=
  [ sort_row ["Oxfam"; "3"; "2020-01-15"];
    sort_row [""; "2"; "2021-06-30"];
    sort_row [];
    sort_row ["ACF"; "1"; "2019-12-01"] ].

(** *** The orderings are strict total orders *)

Section OrderLaws.

Lemma ascii_compare_refl (a : ascii) : Ascii.compare a a = Eq.
Proof. unfold Ascii.compare. apply N.compare_refl. Qed.

Lemma ascii_compare_lt_trans (a b c : ascii) :
  Ascii.compare a b = Lt -> Ascii.compare b c = Lt -> Ascii.compare a c = Lt.
Proof.
  unfold Ascii.compare. rewrite !N.compare_lt_iff. lia.
Qed.

Lemma string_compare_refl (s : string) : String.compare s s = Eq.
Proof.
  induction s as [|a s IH]; simpl; [reflexivity|].
  now rewrite ascii_compare_refl.
Qed.

Lemma string_compare_lt_trans (s t u : string) :
  String.compare s t = Lt -> String.compare t u = Lt -> String.compare s u = Lt.
Proof.
  revert t u. induction s as [|a s IH]; intros [|b t] [|c u]; simpl;
    try congruence.
  destruct (Ascii.compare a b) eqn:Hab; try discriminate.
  - apply Ascii.compare_eq_iff in Hab. subst b.
    destruct (Ascii.compare a c); try congruence. apply IH.
  - intros _. destruct (Ascii.compare b c) eqn:Hbc; try discriminate.
    + apply Ascii.compare_eq_iff in Hbc. subst c. now rewrite Hab.
    + intros _. now rewrite (ascii_compare_lt_trans a b c).
Qed.

#[export] Instance str_ord_laws : PyOrdLaws string.
Proof.
  split; simpl.
  - apply String.eqb_eq.
  - intros x. unfold String.ltb. now rewrite string_compare_refl.
  - intros x y z. unfold String.ltb.
    destruct (String.compare x y) eqn:Hxy; try discriminate.
    destruct (String.compare y z) eqn:Hyz; try discriminate.
    now rewrite (string_compare_lt_trans x y z).
  - intros x y. unfold String.ltb. rewrite (String.compare_antisym y x).
    destruct (String.compare x y) eqn:Hxy; simpl; try discriminate.
    intros _ _. now apply String.compare_eq_iff.
Qed.

#[export] Instance int_ord_laws : PyOrdLaws nat.
Proof.
  split; simpl.
  - apply Nat.eqb_eq.
  - apply Nat.ltb_irrefl.
  - intros x y z. rewrite !Nat.ltb_lt. lia.
  - intros x y. rewrite !Nat.ltb_ge. lia.
Qed.

Context {K : Type} `{PyOrdLaws K}.

Lemma py_eqb_refl (x : K) : py_eqb x x = true.
Proof. now apply py_eqb_eq. Qed.

Lemma py_eqb_false (x y : K) : py_eqb x y = false <-> x <> y.
Proof.
  destruct (py_eqb x y) eqn:E.
  - apply py_eqb_eq in E. split; congruence.
  - split; [|reflexivity]. intros _ Hxy. apply py_eqb_eq in Hxy. congruence.
Qed.

Lemma py_ltb_asym (x y : K) : py_ltb x y = true -> py_ltb y x = false.
Proof.
  intros Hxy. destruct (py_ltb y x) eqn:Hyx; [|reflexivity].
  rewrite <- (py_ltb_irrefl x). symmetry. now apply (py_ltb_trans x y x).
Qed.

(** [x <= y], read as "not [y < x]", is transitive. *)
Lemma py_geb_trans (x y z : K) :
  py_ltb y x = false -> py_ltb z y = false -> py_ltb z x = false.
Proof.
  intros Hyx Hzy. destruct (py_ltb z x) eqn:Hzx; [|reflexivity].
  destruct (py_ltb x y) eqn:Hxy.
  - rewrite (py_ltb_trans z x y Hzx Hxy) in Hzy. discriminate.
  - assert (x = y) by now apply py_ltb_total. subst. congruence.
Qed.

Lemma seq_eqb_eq (a b : list K) : seq_eqb a b = true <-> a = b.
Proof.
  revert b. induction a as [|x a IH]; intros [|y b]; simpl;
    try (split; congruence).
  rewrite andb_true_iff, py_eqb_eq, IH. split.
  - intros [-> ->]. reflexivity.
  - intros [= -> ->]. split; reflexivity.
Qed.

Lemma seq_ltb_irrefl (a : list K) : seq_ltb a a = false.
Proof.
  induction a as [|x a IH]; simpl; [reflexivity|].
  now rewrite py_eqb_refl.
Qed.

Lemma seq_ltb_trans (a b c : list K) :
  seq_ltb a b = true -> seq_ltb b c = true -> seq_ltb a c = true.
Proof.
  revert b c. induction a as [|x a IH]; intros [|y b] [|z c]; simpl;
    try congruence.
  destruct (py_eqb x y) eqn:Exy.
  - apply py_eqb_eq in Exy. subst y.
    destruct (py_eqb x z); [apply IH | congruence].
  - intros Hxy. destruct (py_eqb y z) eqn:Eyz.
    + apply py_eqb_eq in Eyz. subst z. now rewrite Exy.
    + intros Hyz. destruct (py_eqb x z) eqn:Exz.
      * apply py_eqb_eq in Exz. subst z.
        rewrite (py_ltb_asym x y Hxy) in Hyz. discriminate.
      * now apply (py_ltb_trans x y z).
Qed.

Lemma seq_ltb_total (a b : list K) :
  seq_ltb a b = false -> seq_ltb b a = false -> a = b.
Proof.
  revert b. induction a as [|x a IH]; intros [|y b]; simpl;
    try congruence.
  destruct (py_eqb x y) eqn:Exy.
  - apply py_eqb_eq in Exy. subst y. rewrite py_eqb_refl.
    intros Hab Hba. f_equal. now apply IH.
  - assert (py_eqb y x = false) as ->.
    { apply py_eqb_false. apply py_eqb_false in Exy. congruence. }
    intros Hxy Hyx. apply py_eqb_false in Exy.
    destruct Exy. now apply py_ltb_total.
Qed.

#[export] Instance seq_ord_laws : PyOrdLaws (list K).
Proof.
  split; simpl.
  - apply seq_eqb_eq.
  - apply seq_ltb_irrefl.
  - apply seq_ltb_trans.
  - apply seq_ltb_total.
Qed.

End OrderLaws.

Section PairLaws.

Context {K1 K2 : Type} `{PyOrdLaws K1} `{PyOrdLaws K2}.

#[export] Instance pair_ord_laws : PyOrdLaws (K1 * K2).
Proof.
  split; simpl.
  - intros [a1 a2] [b1 b2]; simpl.
    rewrite andb_true_iff, !py_eqb_eq. split.
    + intros [-> ->]. reflexivity.
    + intros [= -> ->]. split; reflexivity.
  - intros [a1 a2]; simpl. rewrite py_eqb_refl. apply py_ltb_irrefl.
  - intros [a1 a2] [b1 b2] [c1 c2]; simpl.
    destruct (py_eqb a1 b1) eqn:Eab.
    + apply py_eqb_eq in Eab. subst b1.
      destruct (py_eqb a1 c1); [apply py_ltb_trans | congruence].
    + intros Hab. destruct (py_eqb b1 c1) eqn:Ebc.
      * apply py_eqb_eq in Ebc. subst c1. now rewrite Eab.
      * intros Hbc. destruct (py_eqb a1 c1) eqn:Eac.
        -- apply py_eqb_eq in Eac. subst c1.
           rewrite (py_ltb_asym a1 b1 Hab) in Hbc. discriminate.
        -- now apply (py_ltb_trans a1 b1 c1).
  - intros [a1 a2] [b1 b2]; simpl.
    destruct (py_eqb a1 b1) eqn:Eab.
    + apply py_eqb_eq in Eab. subst b1. rewrite py_eqb_refl.
      intros Hab Hba. f_equal. now apply py_ltb_total.
    + assert (py_eqb b1 a1 = false) as ->.
      { apply py_eqb_false. apply py_eqb_false in Eab. congruence. }
      intros Hab Hba. apply py_eqb_false in Eab.
      destruct Eab. now apply py_ltb_total.
Qed.

End PairLaws.

(** The order of lists of strings, spelled out. *)
Lemma seq_ltb_lex (a b : list string) : py_ltb a b = true <-> lex_lt a b.
Proof.
  simpl. split.
  - revert b. induction a as [|x a IH]; intros [|y b]; simpl; try discriminate.
    + intros _. now exists [], [], (y :: b).
    + destruct (String.eqb x y) eqn:E.
      * apply String.eqb_eq in E. subst y. intros Hlt.
        destruct (IH b Hlt) as (common & a' & b' & -> & -> & Hc).
        now exists (x :: common), a', b'.
      * intros Hlt. now exists [], (x :: a), (y :: b).
  - intros (common & a' & b' & -> & -> & Hc).
    induction common as [|c common IH]; simpl.
    + destruct a' as [|x a'], b' as [|y b']; simpl; try tauto.
      destruct (String.eqb x y) eqn:E; [|exact Hc].
      apply String.eqb_eq in E. subst y.
      pose proof (py_ltb_irrefl x) as Hirr. simpl in Hirr. congruence.
    + now rewrite String.eqb_refl.
Qed.

(** ** The stable sort *)

Section SortFacts.

Context {K A : Type} `{PyOrdLaws K}.

Implicit Types (x : K * A) (l : list (K * A)).

Lemma insert_keyed_perm x l : Permutation (insert_keyed x l) (x :: l).
Proof.
  induction l as [|y l IH]; simpl; [reflexivity|].
  destruct (py_ltb (fst y) (fst x)); [|reflexivity].
  rewrite IH. apply perm_swap.
Qed.

Lemma sort_keyed_perm l : Permutation (sort_keyed l) l.
Proof.
  induction l as [|x l IH]; simpl; [reflexivity|].
  rewrite insert_keyed_perm. now constructor.
Qed.

Lemma insert_keyed_ascending x l :
  ascending (map fst l) -> ascending (map fst (insert_keyed x l)).
Proof.
  unfold ascending. induction l as [|y l IH]; simpl; intros Hl.
  - repeat constructor.
  - apply StronglySorted_inv in Hl as [Hl Hy].
    destruct (py_ltb (fst y) (fst x)) eqn:Hyx; simpl.
    + constructor; [now apply IH|].
      eapply Permutation_Forall.
      * symmetry. apply Permutation_map, insert_keyed_perm.
      * simpl. constructor; [|exact Hy].
        unfold key_le. now apply py_ltb_asym.
    + constructor; [now constructor|].
      constructor; [exact Hyx|].
      eapply List.Forall_impl; [|exact Hy].
      intros k Hk. unfold key_le in *. now apply (py_geb_trans (fst x) (fst y) k).
Qed.

Lemma sort_keyed_ascending l : ascending (map fst (sort_keyed l)).
Proof.
  induction l as [|x l IH]; simpl; [constructor|].
  now apply insert_keyed_ascending.
Qed.

(** Insertion does not disturb the order among the elements of one key. *)
Lemma insert_keyed_filter (k : K) x l :
  List.filter (fun p => py_eqb k (fst p)) (insert_keyed x l)
  = List.filter (fun p => py_eqb k (fst p)) (x :: l).
Proof.
  induction l as [|y l IH]; [reflexivity|].
  simpl insert_keyed. destruct (py_ltb (fst y) (fst x)) eqn:Hyx; [|reflexivity].
  change (List.filter ?f (y :: ?t))
    with (if f y then y :: List.filter f t else List.filter f t).
  rewrite IH. simpl.
  destruct (py_eqb k (fst x)) eqn:Ex, (py_eqb k (fst y)) eqn:Ey; try reflexivity.
  apply py_eqb_eq in Ex, Ey. rewrite <- Ex, <- Ey, py_ltb_irrefl in Hyx.
  discriminate.
Qed.

Lemma sort_keyed_filter (k : K) l :
  List.filter (fun p => py_eqb k (fst p)) (sort_keyed l)
  = List.filter (fun p => py_eqb k (fst p)) l.
Proof.
  induction l as [|x l IH]; [reflexivity|].
  simpl sort_keyed. rewrite insert_keyed_filter. simpl. now rewrite IH.
Qed.

(** With pairwise distinct keys there is only one ascending arrangement. *)
Lemma ascending_unique l1 l2 :
  List.NoDup (map fst l1) -> Permutation l1 l2 ->
  ascending (map fst l1) -> ascending (map fst l2) -> l1 = l2.
Proof.
  unfold ascending. revert l2.
  induction l1 as [|x l1 IH]; intros l2 Hnd Hp H1 H2.
  - now apply Permutation_nil in Hp.
  - destruct l2 as [|y l2].
    { symmetry in Hp. now apply Permutation_nil in Hp. }
    simpl in *. apply List.NoDup_cons_iff in Hnd as [Hx Hnd].
    apply StronglySorted_inv in H1 as [H1 Hx1].
    apply StronglySorted_inv in H2 as [H2 Hy2].
    assert (x = y) as ->.
    { assert (In x (y :: l2)) as [Hxy|Hxy]
        by (eapply Permutation_in; [exact Hp | now left]); [congruence|].
      assert (In y (x :: l1)) as [Hyx|Hyx]
        by (eapply Permutation_in; [symmetry; exact Hp | now left]);
        [congruence|].
      exfalso. apply Hx.
      rewrite List.Forall_forall in Hx1, Hy2.
      assert (fst x = fst y) as ->.
      { apply py_ltb_total.
        - apply Hy2, in_map, Hxy.
        - apply Hx1, in_map, Hyx. }
      apply in_map, Hyx. }
    f_equal. apply IH; auto. now apply Permutation_cons_inv in Hp.
Qed.

(** The ascending arrangement that keeps the elements of every key in
    their order is unique: every stable sort returns what [sort_keyed]
    returns. *)
Lemma stable_sort_unique l1 l2 :
  ascending (map fst l1) -> ascending (map fst l2) ->
  (forall k, List.filter (fun p => py_eqb k (fst p)) l1
             = List.filter (fun p => py_eqb k (fst p)) l2) ->
  l1 = l2.
Proof.
  assert (forall x l l', ascending (map fst (x :: l)) ->
            (forall k, List.filter (fun p => py_eqb k (fst p)) (x :: l)
                       = List.filter (fun p => py_eqb k (fst p)) l') ->
            forall y, In y l' -> py_ltb (fst y) (fst x) = false) as Hmin.
  { intros x l l' Hs Hf y Hy.
    assert (In y (x :: l)) as [<-|Hin].
    { apply (filter_In (fun p => py_eqb (fst y) (fst p))).
      rewrite (Hf (fst y)). apply filter_In. split; [exact Hy|].
      apply py_eqb_refl. }
    - apply py_ltb_irrefl.
    - simpl in Hs. apply StronglySorted_inv in Hs as [_ Hall].
      rewrite List.Forall_forall in Hall. apply Hall. now apply in_map. }
  revert l2. induction l1 as [|x l1 IH]; intros [|y l2] H1 H2 Hf.
  - reflexivity.
  - specialize (Hf (fst y)). simpl in Hf. rewrite py_eqb_refl in Hf.
    discriminate.
  - specialize (Hf (fst x)). simpl in Hf. rewrite py_eqb_refl in Hf.
    discriminate.
  - assert (fst x = fst y) as Hk.
    { apply py_ltb_total.
      - apply (Hmin y l2 (x :: l1) H2); [|now left].
        intros k. symmetry. apply Hf.
      - apply (Hmin x l1 (y :: l2) H1 Hf). now left. }
    assert (x = y) as <-.
    { specialize (Hf (fst x)). simpl in Hf.
      rewrite <- Hk, py_eqb_refl in Hf. congruence. }
    f_equal. apply IH.
    + simpl in H1. now apply StronglySorted_inv in H1.
    + simpl in H2. now apply StronglySorted_inv in H2.
    + intros k. specialize (Hf k). simpl in Hf.
      destruct (py_eqb k (fst x)); congruence.
Qed.

Lemma sort_keyed_stable_unique l out :
  Permutation out l -> ascending (map fst out) ->
  (forall k, List.filter (fun p => py_eqb k (fst p)) out
             = List.filter (fun p => py_eqb k (fst p)) l) ->
  out = sort_keyed l.
Proof.
  intros _ Hs Hf. apply stable_sort_unique.
  - exact Hs.
  - apply sort_keyed_ascending.
  - intros k. now rewrite sort_keyed_filter.
Qed.

Lemma ascending_rev (ks : list K) : ascending ks -> descending (List.rev ks).
Proof.
  unfold ascending, descending. induction 1 as [|k ks Hs IH Hk]; simpl.
  - constructor.
  - apply StronglySorted_app_2;
      try match goal with
          | |- StronglySorted _ (List.rev _) => exact IH
          | |- StronglySorted _ [_] => repeat constructor
          end.
    intros a b Ha Hb. apply list_elem_of_In in Ha, Hb.
    destruct Hb as [<-|[]]. apply in_rev in Ha.
    rewrite List.Forall_forall in Hk. now apply Hk.
Qed.

Lemma sort_decorated_forward l :
  sort_decorated false l = map snd (sort_keyed l).
Proof. reflexivity. Qed.

Lemma sort_decorated_backward l :
  sort_decorated true l = map snd (List.rev (sort_keyed (List.rev l))).
Proof. reflexivity. Qed.

Lemma sort_decorated_keyed (reverse : bool) l :
  exists l', sort_decorated reverse l = map snd l'
    /\ Permutation l' l
    /\ (forall k, List.filter (fun p => py_eqb k (fst p)) l'
                  = List.filter (fun p => py_eqb k (fst p)) l)
    /\ (if reverse then descending (map fst l') else ascending (map fst l')).
Proof.
  destruct reverse.
  - exists (List.rev (sort_keyed (List.rev l))).
    split; [reflexivity|]. split; [|split].
    + rewrite <- Permutation_rev, sort_keyed_perm. symmetry.
      apply Permutation_rev.
    + intros k. now rewrite filter_rev, sort_keyed_filter, filter_rev, rev_involutive.
    + rewrite map_rev. apply ascending_rev, sort_keyed_ascending.
  - exists (sort_keyed l).
    split; [reflexivity|]. split; [|split].
    + apply sort_keyed_perm.
    + intros k. apply sort_keyed_filter.
    + apply sort_keyed_ascending.
Qed.


End SortFacts.

(** ** The mapping *)

Section DictFacts.

Context {K V : Type} `{PyOrdLaws K}.

Implicit Types (d : list (K * V)).

Lemma dict_get_set_eq (k : K) (v : V) d : dict_get k (dict_set k v d) = Some v.
Proof.
  induction d as [|[k0 v0] d IH]; simpl.
  - now rewrite py_eqb_refl.
  - destruct (py_eqb k k0) eqn:E; simpl; rewrite E; [reflexivity | exact IH].
Qed.

Lemma dict_get_set_ne (k k' : K) (v : V) d :
  k <> k' -> dict_get k' (dict_set k v d) = dict_get k' d.
Proof.
  intros Hne. induction d as [|[k0 v0] d IH]; simpl.
  - apply not_eq_sym, py_eqb_false in Hne. now rewrite Hne.
  - destruct (py_eqb k k0) eqn:E; simpl.
    + apply py_eqb_eq in E. subst k0.
      apply not_eq_sym, py_eqb_false in Hne. now rewrite Hne.
    + now rewrite IH.
Qed.

Lemma dict_get_None (k : K) d : dict_get k d = None <-> ~ In k (map fst d).
Proof.
  induction d as [|[k0 v0] d IH]; simpl; [tauto|].
  destruct (py_eqb k k0) eqn:E.
  - apply py_eqb_eq in E. subst. split; [discriminate | tauto].
  - apply py_eqb_false in E. rewrite IH. split.
    + intros Hn [->|Hin]; tauto.
    + tauto.
Qed.

Lemma dict_get_In (k : K) (v : V) d :
  List.NoDup (map fst d) -> (dict_get k d = Some v <-> In (k, v) d).
Proof.
  induction d as [|[k0 v0] d IH]; simpl; intros Hnd.
  - split; [discriminate | tauto].
  - apply List.NoDup_cons_iff in Hnd as [Hk0 Hnd].
    destruct (py_eqb k k0) eqn:E.
    + apply py_eqb_eq in E. subst k0. split.
      * intros [= ->]. now left.
      * intros [[= ->]|Hin]; [reflexivity|].
        exfalso. apply Hk0. now apply (in_map fst) in Hin.
    + apply py_eqb_false in E. rewrite (IH Hnd). split.
      * tauto.
      * intros [[= -> ->]|Hin]; [congruence | exact Hin].
Qed.

Lemma dict_set_keys (k : K) (v : V) d :
  map fst (dict_set k v d)
  = match dict_get k d with
    | Some _ => map fst d
    | None => map fst d ++ [k]
    end.
Proof.
  induction d as [|[k0 v0] d IH]; simpl; [reflexivity|].
  destruct (py_eqb k k0) eqn:E; simpl; [reflexivity|].
  rewrite IH. now destruct (dict_get k d).
Qed.

Lemma dict_set_NoDup (k : K) (v : V) d :
  List.NoDup (map fst d) -> List.NoDup (map fst (dict_set k v d)).
Proof.
  intros Hnd. rewrite dict_set_keys.
  destruct (dict_get k d) eqn:E; [exact Hnd|].
  apply dict_get_None in E.
  apply Permutation.Permutation_NoDup with (l := k :: map fst d).
  - apply Permutation_cons_append.
  - now constructor.
Qed.

End DictFacts.

Lemma dict_set_sum {K} `{PyOrdLaws K} (k : K) (v : nat) (d : list (K * nat)) :
  list_sum (map snd (dict_set k v d)) + default 0 (dict_get k d)
  = list_sum (map snd d) + v.
Proof.
  induction d as [|[k0 v0] d IH]; simpl; [lia|].
  destruct (py_eqb k k0); simpl; lia.
Qed.

(** ** The counting loop *)

Section CountFacts.

Variable row_get : Row -> string -> option string.

Abbreviation extract := (extract_values row_get).
Abbreviation tally := (count_rows row_get).

Lemma filter_split_length {X} (f : X -> bool) (l : list X) :
  List.length (List.filter f l)
  + List.length (List.filter (fun x => negb (f x)) l) = List.length l.
Proof.
  induction l as [|x l IH]; simpl; [reflexivity|].
  destruct (f x); simpl; lia.
Qed.

Lemma extract_values_nil (row : Row) (tags : list string) :
  extract row tags = [] <-> fully_absent row_get tags row = true.
Proof.
  induction tags as [|tag tags IH]; simpl; [tauto|].
  destruct (row_get row tag); simpl; [split; discriminate | exact IH].
Qed.

Lemma count_rows_snoc (tags : list string) (input : list Row) (row : Row) :
  tally tags (input ++ [row]) = count_row row_get tags (tally tags input) row.
Proof. unfold count_rows. now rewrite fold_left_app. Qed.

Lemma occurrences_snoc tags input row key :
  occurrences row_get tags (input ++ [row]) key
  = occurrences row_get tags input key
    + (if py_eqb (extract row tags) key then 1 else 0).
Proof.
  unfold occurrences. rewrite List.filter_app, List.length_app.
  f_equal. cbn [List.filter].
  now destruct (py_eqb (extract row tags) key).
Qed.

(** What the mapping holds after the loop: a key for every non-empty
    tuple that occurs, with the number of its occurrences. *)
Lemma count_rows_spec (tags : list string) (input : list Row) :
  List.NoDup (map fst (tally tags input))
  /\ forall key,
      dict_get key (tally tags input)
      = if truthy_list key && Nat.ltb 0 (occurrences row_get tags input key)
        then Some (occurrences row_get tags input key)
        else None.
Proof.
  induction input as [|row input [IHnd IH]] using rev_ind.
  - split; [constructor|]. intros [|]; reflexivity.
  - rewrite count_rows_snoc. unfold count_row.
    destruct (extract row tags) as [|v vs] eqn:Hvs.
    + split; [exact IHnd|]. intros key. rewrite IH, occurrences_snoc, Hvs.
      destruct key; [reflexivity|]. simpl. now rewrite Nat.add_0_r.
    + set (key0 := v :: vs) in *.
      assert (forall m, List.NoDup (map fst (dict_set key0 m (tally tags input))))
        as Hnd by (intros m; now apply dict_set_NoDup).
      assert (forall m key,
                 dict_get key (dict_set key0 m (tally tags input))
                 = if py_eqb key0 key then Some m
                   else dict_get key (tally tags input)) as Hget.
      { intros m key. destruct (py_eqb key0 key) eqn:E.
        - apply py_eqb_eq in E. subst key. apply dict_get_set_eq.
        - apply py_eqb_false in E. now apply dict_get_set_ne. }
      pose proof (IH key0) as H0.
      assert (truthy_list key0 = true) as Ht by reflexivity.
      rewrite Ht in H0. simpl in H0.
      destruct (occurrences row_get tags input key0) as [|n] eqn:Hocc;
        simpl in H0; rewrite H0; (split; [apply Hnd|]); intros key;
        rewrite Hget, occurrences_snoc, Hvs; fold key0;
        destruct (py_eqb key0 key) eqn:E.
      * apply py_eqb_eq in E. subst key. now rewrite Hocc, Ht.
      * rewrite IH, Nat.add_0_r. reflexivity.
      * apply py_eqb_eq in E. subst key. rewrite Hocc, Ht.
        reflexivity.
      * rewrite IH, Nat.add_0_r. reflexivity.
Qed.

Lemma count_rows_In (tags : list string) (input : list Row) key n :
  In (key, n) (tally tags input)
  <-> key <> [] /\ n = occurrences row_get tags input key /\ 0 < n.
Proof.
  destruct (count_rows_spec tags input) as [Hnd Hget].
  rewrite <- (dict_get_In key n _ Hnd), Hget.
  destruct key as [|k key]; simpl.
  - split; [discriminate | intros [? _]; congruence].
  - destruct (Nat.ltb 0 (occurrences row_get tags input (k :: key))) eqn:Hpos.
    + apply Nat.ltb_lt in Hpos. split.
      * intros [= <-]. repeat split; [discriminate | exact Hpos].
      * intros (_ & -> & _). reflexivity.
    + apply Nat.ltb_ge in Hpos. split; [discriminate | lia].
Qed.

Lemma count_rows_sum (tags : list string) (input : list Row) :
  list_sum (map snd (tally tags input))
  = List.length
      (List.filter (fun row => negb (fully_absent row_get tags row)) input).
Proof.
  induction input as [|row input IH] using rev_ind; [reflexivity|].
  rewrite count_rows_snoc, List.filter_app, List.length_app, <- IH. simpl.
  unfold count_row.
  destruct (extract row tags) as [|v vs] eqn:Hvs.
  - apply extract_values_nil in Hvs. rewrite Hvs. simpl. lia.
  - assert (fully_absent row_get tags row = false) as ->.
    { destruct (fully_absent row_get tags row) eqn:E; [|reflexivity].
      apply extract_values_nil in E. congruence. }
    simpl.
    destruct (count_rows_spec tags input) as [_ Hget].
    pose proof (Hget (v :: vs)) as H0. simpl in H0.
    destruct (occurrences row_get tags input (v :: vs)) as [|n];
      simpl in H0; rewrite H0.
    + pose proof (dict_set_sum (v :: vs) 1 (tally tags input)) as Hs.
      rewrite H0 in Hs. simpl in Hs. lia.
    + pose proof (dict_set_sum (v :: vs) (S n + 1) (tally tags input)) as Hs.
      rewrite H0 in Hs. simpl in Hs. lia.
Qed.

(** Sorting the items of a mapping: the keys come out strictly
    ascending, whatever the counts are. *)
Lemma sorted_plain_perm {X} `{PyOrdLaws X} (xs : list X) :
  Permutation (sorted_plain xs) xs.
Proof.
  unfold sorted_plain. rewrite sort_decorated_forward.
  rewrite (sort_keyed_perm (map (fun x => (x, x)) xs)).
  rewrite map_map. simpl. now rewrite map_id.
Qed.

Lemma sorted_plain_ascending {X} `{PyOrdLaws X} (xs : list X) :
  ascending (sorted_plain xs).
Proof.
  unfold sorted_plain. rewrite sort_decorated_forward.
  pose proof (sort_keyed_ascending (map (fun x => (x, x)) xs)) as Hs.
  assert (forall l : list (X * X),
             List.Forall (fun p => fst p = snd p) l -> map fst l = map snd l)
    as Heq.
  { induction 1 as [|p l Hp _ IH]; simpl; congruence. }
  rewrite <- Heq; [exact Hs|].
  eapply Permutation_Forall.
  - symmetry. apply sort_keyed_perm.
  - apply List.Forall_forall. intros p Hp. apply in_map_iff in Hp.
    destruct Hp as (x & <- & _). reflexivity.
Qed.

Lemma items_strictly_ascending (items : list (list string * nat)) :
  List.NoDup (map fst items) -> ascending items ->
  strictly_ascending (map fst items).
Proof.
  unfold ascending, strictly_ascending.
  induction items as [|a items IH]; simpl; intros Hnd Hs; [constructor|].
  apply List.NoDup_cons_iff in Hnd as [Ha Hnd].
  apply StronglySorted_inv in Hs as [Hs Hall].
  constructor; [now apply IH|].
  rewrite List.Forall_forall in *. intros k Hk.
  apply in_map_iff in Hk. destruct Hk as (b & <- & Hb).
  specialize (Hall b Hb). unfold key_le in Hall. simpl in Hall.
  destruct (seq_eqb (fst b) (fst a)) eqn:E.
  - apply seq_eqb_eq in E. exfalso. apply Ha. rewrite <- E. now apply in_map.
  - destruct (seq_ltb (fst a) (fst b)) eqn:E'; [reflexivity|].
    exfalso. apply Ha. rewrite (seq_ltb_total _ _ E' Hall). now apply in_map.
Qed.

End CountFacts.

(** ** The count command *)

Section CountTheorems.

Variable row_get : Row -> string -> option string.

Lemma extract_values_omap (row : Row) (tags : list string) :
  extract_values row_get row tags = omap (row_get row) tags.
Proof.
  induction tags as [|tag rest IH]; simpl; [reflexivity|].
  destruct (row_get row tag); simpl; now rewrite IH.
Qed.

Lemma occurrences_perm tags (input input' : list Row) key :
  Permutation input input' ->
  occurrences row_get tags input key = occurrences row_get tags input' key.
Proof.
  intros Hp. unfold occurrences. apply Permutation_length.
  induction Hp as [|x l l' _ IH|x y l|l l' l'' _ IH1 _ IH2]; simpl.
  - constructor.
  - destruct (seq_eqb (extract_values row_get x tags) key); auto.
  - destruct (seq_eqb (extract_values row_get x tags) key),
      (seq_eqb (extract_values row_get y tags) key); auto using perm_swap.
  - now transitivity
      (List.filter (fun row => py_eqb (extract_values row_get row tags) key) l').
Qed.

Lemma count_rows_perm tags (input input' : list Row) :
  Permutation input input' ->
  Permutation (count_rows row_get tags input) (count_rows row_get tags input').
Proof.
  intros Hp. apply Permutation.NoDup_Permutation.
  - eapply List.NoDup_map_inv, count_rows_spec.
  - eapply List.NoDup_map_inv, count_rows_spec.
  - intros [key n]. rewrite !count_rows_In.
    now rewrite (occurrences_perm tags input input' key Hp).
Qed.

Lemma sorted_plain_unique (l l' : list (list string * nat)) :
  List.NoDup l -> Permutation l l' -> sorted_plain l = sorted_plain l'.
Proof.
  intros Hnd Hp. unfold sorted_plain. rewrite !sort_decorated_forward.
  f_equal. apply ascending_unique.
  - eapply Permutation.Permutation_NoDup; [|exact Hnd].
    symmetry. etransitivity; [apply Permutation_map, sort_keyed_perm|].
    rewrite map_map. simpl. now rewrite map_id.
  - rewrite !sort_keyed_perm. now apply Permutation_map.
  - apply sort_keyed_ascending.
  - apply sort_keyed_ascending.
Qed.

(** C1. For every row sequence and tag list, the count command writes,
    after the header, one row per distinct non-empty tuple of extracted
    values, with the number of input rows that produce the tuple as its
    count; a tag without a value in a row is skipped for that row only,
    a row without any value under the tags is in no group, and the
    counts add up to the number of rows minus the fully absent ones. *)
Theorem hxlcount_groups (input : list Row) (tags : ref) (st : store)
  (tag_list : list string) :
  st !! tags = Some tag_list ->
  exists aggregates st',
    hxlcount row_get input tags st
    = Some (map CStr (tag_list ++ ["#x_total_num"])
              :: map aggregate_row aggregates, st')
    /\ List.NoDup (map fst aggregates)
    /\ (forall key n,
           In (key, n) aggregates
           <-> key <> [] /\ n = occurrences row_get tag_list input key
               /\ 0 < n)
    /\ (forall row,
           extract_values row_get row tag_list = omap (row_get row) tag_list)
    /\ (forall row,
           extract_values row_get row tag_list = []
           <-> fully_absent row_get tag_list row = true)
    /\ list_sum (map snd aggregates)
       = List.length input
         - List.length (List.filter (fully_absent row_get tag_list) input).
Proof.
  intros Hst. unfold hxlcount. rewrite Hst.
  set (stats := count_rows row_get tag_list input).
  exists (sorted_plain stats), (<[tags := tag_list ++ ["#x_total_num"]]> st).
  pose proof (sorted_plain_perm stats) as Hperm.
  split; [reflexivity|]. split; [|split; [|split; [|split]]].
  - eapply Permutation.Permutation_NoDup.
    + symmetry. apply Permutation_map, Hperm.
    + apply count_rows_spec.
  - intros key n. rewrite <- count_rows_In. fold stats.
    split; apply Permutation_in; [exact Hperm | now symmetry].
  - intros row. apply extract_values_omap.
  - intros row. apply extract_values_nil.
  - rewrite (Permutation_list_sum (Permutation_map snd Hperm)).
    unfold stats. rewrite count_rows_sum.
    pose proof (filter_split_length (fully_absent row_get tag_list) input).
    lia.
Qed.

(** C3. The count command writes first the requested tags followed by
    [#x_total_num], then the aggregates, each as the values of its tuple
    followed by its count, with the tuples strictly ascending in the
    order of Python tuples; the rows written depend neither on the order
    in which the tuples were met nor on the counts. *)
Theorem hxlcount_output (input : list Row) (tags : ref) (st : store)
  (tag_list : list string) :
  st !! tags = Some tag_list ->
  exists aggregates st',
    hxlcount row_get input tags st
    = Some ((map CStr tag_list ++ [CStr "#x_total_num"])
              :: map (fun a => map CStr (fst a) ++ [CInt (snd a)]) aggregates,
            st')
    /\ Permutation aggregates (count_rows row_get tag_list input)
    /\ strictly_ascending (map fst aggregates)
    /\ (forall a b : list string, py_ltb a b = true <-> lex_lt a b)
    /\ (forall input', Permutation input input' ->
          hxlcount row_get input' tags st = hxlcount row_get input tags st).
Proof.
  intros Hst. unfold hxlcount. rewrite Hst.
  set (stats := count_rows row_get tag_list input).
  exists (sorted_plain stats), (<[tags := tag_list ++ ["#x_total_num"]]> st).
  assert (List.NoDup (map fst stats)) as Hnd by apply count_rows_spec.
  split; [|split; [|split; [|split]]].
  - now rewrite map_app.
  - apply sorted_plain_perm.
  - apply items_strictly_ascending.
    + eapply Permutation.Permutation_NoDup; [|exact Hnd].
      symmetry. apply Permutation_map, sorted_plain_perm.
    + apply sorted_plain_ascending.
  - apply seq_ltb_lex.
  - intros input' Hp. do 4 f_equal. symmetry.
    apply sorted_plain_unique.
    + eapply List.NoDup_map_inv, Hnd.
    + now apply count_rows_perm.
Qed.

(** C10. The count command appends [#x_total_num] to the caller's list
    object itself: after a call the list is one longer and no other list
    has changed, and a second call with the same list writes a header
    with [#x_total_num] twice and groups by the synthetic tag as well. *)
Theorem hxlcount_mutates_tags (input input2 : list Row) (tags : ref)
  (st : store) (tag_list : list string) :
  st !! tags = Some tag_list ->
  exists written st',
    hxlcount row_get input tags st = Some (written, st')
    /\ st' !! tags = Some (tag_list ++ ["#x_total_num"])
    /\ (forall tag_list', st' !! tags = Some tag_list' ->
          List.length tag_list' = S (List.length tag_list))
    /\ (forall other, other <> tags -> st' !! other = st !! other)
    /\ exists st'',
        hxlcount row_get input2 tags st'
        = Some (map CStr (tag_list ++ ["#x_total_num"; "#x_total_num"])
                  :: map aggregate_row
                       (sorted_plain
                          (count_rows row_get
                             (tag_list ++ ["#x_total_num"]) input2)),
                st'')
        /\ st'' !! tags
           = Some (tag_list ++ ["#x_total_num"; "#x_total_num"]).
Proof.
  intros Hst. unfold hxlcount at 1. rewrite Hst.
  eexists _, _. split; [reflexivity|].
  assert (<[tags := tag_list ++ ["#x_total_num"]]> st !! tags
          = Some (tag_list ++ ["#x_total_num"])) as Hst'
    by apply lookup_insert_eq.
  split; [exact Hst'|]. split; [|split].
  - intros tag_list'. rewrite Hst'. intros [= <-].
    rewrite List.length_app. simpl. lia.
  - intros other Hne. now apply lookup_insert_ne.
  - unfold hxlcount. rewrite Hst'. rewrite <- app_assoc. simpl.
    eexists. split; [reflexivity|]. apply lookup_insert_eq.
Qed.

End CountTheorems.

Lemma hxlcount_groups_witness :
  exists aggregates st',
    hxlcount get_by_hashtag example_input 1%positive example_store
    = Some (map CStr (example_tags ++ ["#x_total_num"])
              :: map aggregate_row aggregates, st')
    /\ List.NoDup (map fst aggregates)
    /\ (forall key n,
           In (key, n) aggregates
           <-> key <> []
               /\ n = occurrences get_by_hashtag example_tags example_input key
               /\ 0 < n)
    /\ (forall row,
           extract_values get_by_hashtag row example_tags
           = omap (get_by_hashtag row) example_tags)
    /\ (forall row,
           extract_values get_by_hashtag row example_tags = []
           <-> fully_absent get_by_hashtag example_tags row = true)
    /\ list_sum (map snd aggregates)
       = List.length example_input
         - List.length
             (List.filter (fully_absent get_by_hashtag example_tags)
                example_input).
Proof.
  apply (hxlcount_groups get_by_hashtag example_input 1%positive
           example_store example_tags).
  reflexivity.
Defined.

Lemma hxlcount_output_witness :
  exists aggregates st',
    hxlcount get_by_hashtag example_input 1%positive example_store
    = Some ((map CStr example_tags ++ [CStr "#x_total_num"])
              :: map (fun a => map CStr (fst a) ++ [CInt (snd a)]) aggregates,
            st')
    /\ Permutation aggregates
         (count_rows get_by_hashtag example_tags example_input)
    /\ strictly_ascending (map fst aggregates)
    /\ (forall a b : list string, py_ltb a b = true <-> lex_lt a b)
    /\ (forall input', Permutation example_input input' ->
          hxlcount get_by_hashtag input' 1%positive example_store
          = hxlcount get_by_hashtag example_input 1%positive example_store).
Proof.
  apply (hxlcount_output get_by_hashtag example_input 1%positive
           example_store example_tags).
  reflexivity.
Defined.

Lemma hxlcount_mutates_tags_witness :
  exists written st',
    hxlcount get_by_hashtag example_input 1%positive example_store
    = Some (written, st')
    /\ st' !! 1%positive = Some (example_tags ++ ["#x_total_num"])
    /\ (forall tag_list', st' !! 1%positive = Some tag_list' ->
          List.length tag_list' = S (List.length example_tags))
    /\ (forall other, other <> 1%positive ->
          st' !! other = example_store !! other)
    /\ exists st'',
        hxlcount get_by_hashtag example_input 1%positive st'
        = Some (map CStr (example_tags ++ ["#x_total_num"; "#x_total_num"])
                  :: map aggregate_row
                       (sorted_plain
                          (count_rows get_by_hashtag
                             (example_tags ++ ["#x_total_num"])
                             example_input)),
                st'')
        /\ st'' !! 1%positive
           = Some (example_tags ++ ["#x_total_num"; "#x_total_num"]).
Proof.
  apply (hxlcount_mutates_tags get_by_hashtag example_input example_input
           1%positive example_store example_tags).
  reflexivity.
Defined.

(** ** [sorted] with a key function *)

Section SortedFacts.

Context {K A : Type} `{PyOrdLaws K}.

Variable key : A -> result K.

Abbreviation has_key := (has_key key).
Abbreviation well_keyed := (well_keyed key).

Lemma decorate_spec (xs : list A) (keyed : list (K * A)) :
  comprehension (decorate key) xs = Ok keyed ->
  map snd keyed = xs /\ well_keyed keyed.
Proof.
  revert keyed. induction xs as [|x xs IH]; simpl; intros keyed.
  - intros [= <-]. split; [reflexivity | constructor].
  - unfold decorate at 1. destruct (key x) as [k|e] eqn:Hk; simpl;
      [|discriminate].
    destruct (comprehension (decorate key) xs) as [l|e]; simpl;
      [|discriminate].
    intros [= <-]. destruct (IH l eq_refl) as [Hs Hw].
    split; simpl; [now rewrite Hs | now constructor].
Qed.

Lemma comprehension_ok {X Y} (f : X -> result Y) (xs : list X) :
  (forall x, In x xs -> exists y, f x = Ok y) ->
  exists ys, comprehension f xs = Ok ys.
Proof.
  induction xs as [|x xs IH]; simpl; intros Hall.
  - now exists [].
  - destruct (Hall x (or_introl eq_refl)) as [y ->]. simpl.
    destruct IH as [ys ->]; [intros; apply Hall; now right|].
    simpl. now eexists.
Qed.

Lemma comprehension_raise {X Y} (f : X -> result Y) (xs : list X) x e :
  In x xs -> f x = Raise e -> exists e', comprehension f xs = Raise e'.
Proof.
  induction xs as [|x0 xs IH]; simpl; [tauto|].
  intros [->|Hin] Hx.
  - rewrite Hx. simpl. now eexists.
  - destruct (f x0); simpl; [|now eexists].
    destruct (IH Hin Hx) as [e' ->]. simpl. now eexists.
Qed.

Lemma comprehension_well_keyed (l : list (K * A)) :
  well_keyed l -> comprehension key (map snd l) = Ok (map fst l).
Proof.
  induction 1 as [|p l Hp _ IH]; simpl; [reflexivity|].
  now rewrite Hp, IH.
Qed.

Lemma filter_well_keyed (k : K) (l : list (K * A)) :
  well_keyed l ->
  List.filter (has_key k) (map snd l)
  = map snd (List.filter (fun p => py_eqb k (fst p)) l).
Proof.
  induction 1 as [|p l Hp _ IH]; simpl; [reflexivity|].
  unfold has_key at 1. rewrite Hp.
  destruct (py_eqb k (fst p)); simpl; now rewrite IH.
Qed.

(** What [sorted] returns when every key can be computed: the elements
    rearranged, those of one key in their original order, with the keys
    ascending, or descending under [reverse]. *)
Lemma sorted_spec (reverse : bool) (xs : list A) :
  (forall x, In x xs -> exists k, key x = Ok k) ->
  exists out keys,
    sorted key reverse xs = Ok out
    /\ Permutation out xs
    /\ (forall k, List.filter (has_key k) out = List.filter (has_key k) xs)
    /\ comprehension key out = Ok keys
    /\ (if reverse then descending keys else ascending keys).
Proof.
  intros Hall. unfold sorted.
  destruct (comprehension_ok (decorate key) xs) as [keyed Hk].
  { intros x Hx. destruct (Hall x Hx) as [k Hkx].
    exists (k, x). unfold decorate. now rewrite Hkx. }
  rewrite Hk. simpl.
  destruct (decorate_spec xs keyed Hk) as [Hxs Hw].
  destruct (sort_decorated_keyed reverse keyed) as (l' & -> & Hp & Hf & Hord).
  assert (well_keyed l') as Hw'
    by (eapply Permutation_Forall; [symmetry; exact Hp | exact Hw]).
  exists (map snd l'), (map fst l').
  split; [reflexivity|]. split; [|split; [|split]].
  - rewrite <- Hxs. now apply Permutation_map.
  - intros k. rewrite <- Hxs, !filter_well_keyed by assumption.
    now rewrite Hf.
  - now apply comprehension_well_keyed.
  - exact Hord.
Qed.

Lemma sorted_raise (reverse : bool) (xs : list A) x e :
  In x xs -> key x = Raise e -> exists e', sorted key reverse xs = Raise e'.
Proof.
  intros Hin Hx. unfold sorted.
  destruct (comprehension_raise (decorate key) xs x e Hin) as [e' ->].
  - unfold decorate. now rewrite Hx.
  - simpl. now eexists.
Qed.


End SortedFacts.

(** ** Strings *)

Section StringFacts.

Import PyStr.

Lemma upper_char_idempotent (c : ascii) : upper_char (upper_char c) = upper_char c.
Proof. destruct c as [[] [] [] [] [] [] [] []]; reflexivity. Qed.

Lemma upper_idempotent (s : string) : upper (upper s) = upper s.
Proof.
  induction s as [|c s IH]; simpl; [reflexivity|].
  now rewrite upper_char_idempotent, IH.
Qed.

Lemma upper_app (s t : string) : upper (s ++ t) = (upper s ++ upper t)%string.
Proof. induction s as [|c s IH]; simpl; [reflexivity | now rewrite IH]. Qed.

Lemma upper_truthy (s : string) : truthy (upper s) = truthy s.
Proof. now destruct s. Qed.

(** Letter case is all that [upper] removes. *)
Lemma upper_lower (s : string) : upper (lower s) = upper s.
Proof.
  induction s as [|c s IH]; simpl; [reflexivity|]. rewrite IH. f_equal.
  destruct c as [[] [] [] [] [] [] [] []]; reflexivity.
Qed.

Lemma empty_string_first (s : string) : s <> "" -> String.ltb "" s = true.
Proof. now destruct s. Qed.

Lemma length_drop_le (n : nat) (s : string) :
  String.length (drop n s) <= String.length s.
Proof.
  revert s. induction n as [|n IH]; intros [|c s]; simpl; try lia.
  specialize (IH s). lia.
Qed.

Lemma last_char_drop (n : nat) (s : string) :
  drop n s <> "" -> last_char (drop n s) = last_char s.
Proof.
  revert s. induction n as [|n IH]; intros [|c s]; simpl; try congruence.
  intros Hne. rewrite (IH s Hne). destruct s; [|reflexivity].
  destruct n; simpl in Hne; congruence.
Qed.

Lemma endswith_last_char (s suffix : string) :
  suffix <> "" -> endswith s suffix = true -> last_char s = last_char suffix.
Proof.
  intros Hne. unfold endswith. rewrite andb_true_iff, String.eqb_eq.
  intros [_ Hd].
  rewrite <- (last_char_drop (String.length s - String.length suffix) s);
    now rewrite Hd.
Qed.

Lemma endswith_date_not_numeric (t : string) :
  endswith t "_date" = true ->
  endswith t "_num" || endswith t "_deg" = false.
Proof.
  intros Hd. apply endswith_last_char in Hd; [|discriminate].
  apply orb_false_iff. split.
  - destruct (endswith t "_num") eqn:E; [|reflexivity].
    apply endswith_last_char in E; [|discriminate].
    rewrite E in Hd. discriminate.
  - destruct (endswith t "_deg") eqn:E; [|reflexivity].
    apply endswith_last_char in E; [|discriminate].
    rewrite E in Hd. discriminate.
Qed.

Lemma append_cons (c : ascii) (s t : string) :
  (String c s ++ t)%string = String c (s ++ t).
Proof. reflexivity. Qed.

Lemma append_empty (t : string) : ("" ++ t)%string = t.
Proof. reflexivity. Qed.

Lemma string_compare_app (a b r s : string) :
  String.length a = String.length b ->
  String.compare (a ++ r) (b ++ s)
  = match String.compare a b with
    | Eq => String.compare r s
    | c => c
    end.
Proof.
  revert b. induction a as [|x a IH]; intros [|y b]; simpl; try discriminate.
  - reflexivity.
  - intros [= Hl]. destruct (Ascii.compare x y); auto.
Qed.

Lemma digit_char_compare (a b : nat) :
  a < 10 -> b < 10 ->
  Ascii.compare (digit_char a) (digit_char b) = Nat.compare a b.
Proof.
  intros Ha Hb.
  do 10 (destruct a as [|a]; [do 10 (destruct b as [|b]; [reflexivity|]); lia|]).
  lia.
Qed.

Lemma upper_digit_char (a : nat) :
  a < 10 -> upper_char (digit_char a) = digit_char a.
Proof.
  intros Ha. do 10 (destruct a as [|a]; [reflexivity|]). lia.
Qed.

Lemma length_fixed_digits (w n : nat) : String.length (fixed_digits w n) = w.
Proof. induction w as [|w IH]; simpl; [reflexivity | now rewrite IH]. Qed.

Lemma upper_fixed_digits (w n : nat) :
  upper (fixed_digits w n) = fixed_digits w n.
Proof.
  induction w as [|w IH]; [reflexivity|].
  cbn [fixed_digits upper]. rewrite IH, upper_digit_char; [reflexivity|].
  apply Nat.mod_upper_bound. discriminate.
Qed.

(** Digit strings of one width are ordered as the numbers they show. *)
Lemma fixed_digits_compare (w n m : nat) :
  String.compare (fixed_digits w n) (fixed_digits w m)
  = Nat.compare (n mod 10 ^ w) (m mod 10 ^ w).
Proof.
  induction w as [|w IH].
  - reflexivity.
  - cbn [fixed_digits String.compare].
    rewrite digit_char_compare
      by (apply Nat.mod_upper_bound; discriminate).
    rewrite IH.
    assert (forall k, k mod 10 ^ S w
                      = k mod 10 ^ w + 10 ^ w * ((k / 10 ^ w) mod 10)) as Hsplit.
    { intros k. rewrite Nat.pow_succ_r', (Nat.mul_comm 10).
      apply Nat.Div0.mod_mul_r. }
    rewrite (Hsplit n), (Hsplit m).
    assert (0 < 10 ^ w) as Hpos by (apply Nat.neq_0_lt_0, Nat.pow_nonzero; discriminate).
    pose proof (Nat.mod_upper_bound n (10 ^ w) ltac:(lia)) as Hn.
    pose proof (Nat.mod_upper_bound m (10 ^ w) ltac:(lia)) as Hm.
    set (a := (n / 10 ^ w) mod 10). set (b := (m / 10 ^ w) mod 10).
    set (p := 10 ^ w) in *. set (x := n mod p) in *. set (y := m mod p) in *.
    destruct (Nat.compare_spec a b) as [->|Hab|Hab].
    + destruct (Nat.compare_spec x y) as [->|Hxy|Hxy]; symmetry.
      * apply Nat.compare_refl.
      * apply Nat.compare_lt_iff. lia.
      * apply Nat.compare_gt_iff. lia.
    + symmetry. apply Nat.compare_lt_iff. nia.
    + symmetry. apply Nat.compare_gt_iff. nia.
Qed.

(** *** Zero-padding of numerals *)

Lemma is_digit_digit_char (d : nat) : d < 10 -> is_digit (digit_char d) = true.
Proof. intros Hd. do 10 (destruct d as [|d]; [reflexivity|]). lia. Qed.

Lemma all_digits_fixed_digits (w n : nat) : all_digits (fixed_digits w n) = true.
Proof.
  induction w as [|w IH]; [reflexivity|].
  cbn [fixed_digits all_digits]. rewrite IH, is_digit_digit_char; [reflexivity|].
  apply Nat.mod_upper_bound. discriminate.
Qed.

Lemma strip_leading_zeros_split (s : string) :
  s = (zeros (String.length s - String.length (strip_leading_zeros s))
       ++ strip_leading_zeros s)%string
  /\ String.length (strip_leading_zeros s) <= String.length s
  /\ (all_digits s = true -> all_digits (strip_leading_zeros s) = true).
Proof.
  induction s as [|c s (IH1 & IH2 & IH3)]; [now repeat split|].
  assert (c = "0"%char \/ strip_leading_zeros (String c s) = String c s)
    as [->|Hc].
  { destruct c as [[] [] [] [] [] [] [] []]; auto. }
  - cbn [strip_leading_zeros]. change (String.length (String "0" s))
      with (S (String.length s)).
    replace (S (String.length s) - String.length (strip_leading_zeros s))
      with (S (String.length s - String.length (strip_leading_zeros s)))
      by lia.
    cbn [zeros]. rewrite append_cons, <- IH1.
    split; [reflexivity|]. split; [lia|]. simpl. exact IH3.
  - rewrite Hc, Nat.sub_diag. now repeat split.
Qed.

Lemma zfill_digits (w : nat) (s : string) :
  String.length s < w -> s <> "" -> all_digits s = true ->
  forall t, zfill w (s ++ t) = (zeros (w - String.length (s ++ t)) ++ s ++ t)%string
            \/ w <= String.length (s ++ t).
Proof.
  intros Hl Hne Hd t. unfold zfill.
  destruct (Nat.leb_spec w (String.length (s ++ t))) as [Hle|Hlt]; [now right|].
  left. destruct s as [|c s]; [congruence|]. simpl in Hd.
  apply andb_true_iff in Hd as [Hc _]. rewrite append_cons.
  destruct c as [[] [] [] [] [] [] [] []]; try reflexivity; discriminate.
Qed.

Lemma fixed_digits_small (w n : nat) :
  n < 10 ^ w -> fixed_digits (S w) n = String "0" (fixed_digits w n).
Proof.
  intros Hn. cbn [fixed_digits]. now rewrite Nat.div_small.
Qed.

Lemma length_append_point (u : string) :
  String.length (u ++ ".0") = String.length u + 2.
Proof. induction u as [|c u IH]; simpl; [reflexivity | now rewrite IH]. Qed.

Lemma string_app_assoc (u v w : string) :
  ((u ++ v) ++ w = u ++ v ++ w)%string.
Proof.
  induction u as [|c u IH]; [reflexivity|].
  rewrite !append_cons. f_equal. exact IH.
Qed.

(** Twelve digits are their numeral behind zeros. *)
Lemma numeral_of_digits (f : string) :
  String.length f = 12 -> all_digits f = true ->
  let z := strip_leading_zeros f in
  String.length (or_zero z) <= 12 /\ or_zero z <> ""
  /\ all_digits (or_zero z) = true
  /\ String "0" f
     = (zeros (13 - String.length (or_zero z)) ++ or_zero z)%string.
Proof.
  intros Hf Hdf z.
  destruct (strip_leading_zeros_split f) as (Hs & Hl & Hd).
  rewrite Hf in Hs, Hl. specialize (Hd Hdf). fold z in Hs, Hl, Hd.
  clearbody z.
  unfold or_zero. destruct z as [|c z]; cbn [truthy].
  - subst f. repeat split; [simpl; lia | discriminate].
  - repeat split; try assumption; try discriminate.
    rewrite Hs at 1.
    replace (13 - String.length (String c z))
      with (S (12 - String.length (String c z))) by lia.
    reflexivity.
Qed.

(** The numeral of [n], followed by [".0"] and zero-filled to fifteen
    characters, is [n] on thirteen digits followed by [".0"]. *)
Lemma zfill_decimal (n : nat) :
  n < 10 ^ 12 ->
  zfill 15 (decimal n ++ ".0") = (fixed_digits 13 n ++ ".0")%string.
Proof.
  intros Hn. rewrite (fixed_digits_small 12 n Hn). clear Hn. unfold decimal.
  destruct (numeral_of_digits (fixed_digits 12 n) (length_fixed_digits 12 n)
              (all_digits_fixed_digits 12 n)) as (Hl & Hne & Hd & Hz).
  rewrite Hz. clear Hz.
  generalize dependent (or_zero (strip_leading_zeros (fixed_digits 12 n))).
  intros u Hl Hne Hd.
  destruct (zfill_digits 15 u ltac:(lia) Hne Hd ".0") as [->|Hbad];
    [|rewrite length_append_point in Hbad; lia].
  rewrite length_append_point, string_app_assoc.
  f_equal. f_equal. lia.
Qed.

Lemma padded_numeral_compare (n m : nat) :
  n < 10 ^ 12 -> m < 10 ^ 12 ->
  String.compare (fixed_digits 13 n ++ ".0") (fixed_digits 13 m ++ ".0")
  = Nat.compare n m.
Proof.
  intros Hn Hm.
  rewrite string_compare_app by now rewrite !length_fixed_digits.
  rewrite fixed_digits_compare.
  assert (10 ^ 12 < 10 ^ 13) by (apply Nat.pow_lt_mono_r; lia).
  rewrite !Nat.mod_small by lia.
  now destruct (Nat.compare n m).
Qed.

(** *** The rendering of dates *)

Lemma all_digits_upper (s : string) : all_digits s = true -> upper s = s.
Proof.
  induction s as [|c s IH]; simpl; [reflexivity|].
  intros Hd. apply andb_true_iff in Hd as [Hc Hs]. rewrite (IH Hs). f_equal.
  destruct c as [[] [] [] [] [] [] [] []]; try reflexivity; discriminate.
Qed.

Lemma year_digits_shape (y : nat) :
  all_digits (year_digits y) = true /\ year_digits y <> "".
Proof.
  unfold year_digits.
  destruct (strip_leading_zeros_split (fixed_digits 4 y)) as (_ & _ & Hd).
  specialize (Hd (all_digits_fixed_digits 4 y)).
  destruct (strip_leading_zeros (fixed_digits 4 y)) as [|c s];
    unfold or_zero; cbn [truthy]; split; try assumption; discriminate.
Qed.

(** A year of four digits is printed on four digits. *)
Lemma year_digits_four (y : nat) :
  10 ^ 3 <= y < 10 ^ 4 -> year_digits y = fixed_digits 4 y.
Proof.
  intros [Hlo Hhi]. unfold year_digits.
  assert (1 <= (y / 10 ^ 3) mod 10 < 10) as Hk.
  { assert (1 <= y / 10 ^ 3) as H1.
    { apply Nat.div_le_lower_bound; [apply Nat.pow_nonzero; discriminate | lia]. }
    assert (y / 10 ^ 3 < 10) as H2.
    { apply Nat.Div0.div_lt_upper_bound.
      rewrite (Nat.pow_succ_r' 10 3) in Hhi. lia. }
    rewrite Nat.mod_small by exact H2. lia. }
  change (fixed_digits 4 y)
    with (String (digit_char ((y / 10 ^ 3) mod 10)) (fixed_digits 3 y)).
  destruct Hk as [Hk1 Hk2]. revert Hk1 Hk2.
  generalize ((y / 10 ^ 3) mod 10) (fixed_digits 3 y). intros k rest Hk1 Hk2.
  destruct k as [|k]; [lia|].
  do 9 (destruct k as [|k]; [reflexivity|]). lia.
Qed.

Lemma strftime_Ymd_upper (d : date) :
  upper (strftime_Ymd d) = strftime_Ymd d.
Proof.
  unfold strftime_Ymd. rewrite !upper_app, !upper_fixed_digits.
  rewrite (all_digits_upper (year_digits (year d)));
    [reflexivity | apply year_digits_shape].
Qed.

Lemma strftime_Ymd_nonempty (d : date) : strftime_Ymd d <> "".
Proof.
  unfold strftime_Ymd.
  destruct (year_digits (year d)) as [|c s];
    rewrite ?append_cons, ?append_empty; discriminate.
Qed.

Lemma strftime_Ymd_four (d : date) :
  valid_date d -> four_digit_year d ->
  strftime_Ymd d
  = (fixed_digits 4 (year d) ++ "-" ++ fixed_digits 2 (month d) ++ "-"
     ++ fixed_digits 2 (day d))%string.
Proof.
  intros (Hy & _) Hfour. unfold strftime_Ymd, four_digit_year in *.
  rewrite year_digits_four; [reflexivity | lia].
Qed.

(** With years of four digits the rendering has ten characters and is
    ordered as the dates are. *)
Lemma strftime_Ymd_length (d : date) :
  valid_date d -> four_digit_year d -> String.length (strftime_Ymd d) = 10.
Proof.
  intros Hv Hfour. rewrite (strftime_Ymd_four d Hv Hfour). reflexivity.
Qed.

Lemma strftime_Ymd_compare (d1 d2 : date) :
  valid_date d1 -> valid_date d2 ->
  four_digit_year d1 -> four_digit_year d2 ->
  String.compare (strftime_Ymd d1) (strftime_Ymd d2) = date_compare d1 d2.
Proof.
  intros Hv1 Hv2 Hf1 Hf2.
  rewrite (strftime_Ymd_four d1 Hv1 Hf1), (strftime_Ymd_four d2 Hv2 Hf2).
  destruct Hv1 as (Hy1 & Hm1 & Hd1), Hv2 as (Hy2 & Hm2 & Hd2).
  unfold date_compare.
  rewrite string_compare_app by now rewrite !length_fixed_digits.
  rewrite fixed_digits_compare.
  rewrite !(Nat.mod_small _ (10 ^ 4)) by lia.
  destruct (Nat.compare (year d1) (year d2)); try reflexivity.
  rewrite ?append_cons, ?append_empty. cbn [String.compare].
  rewrite ascii_compare_refl.
  rewrite string_compare_app by now rewrite !length_fixed_digits.
  rewrite fixed_digits_compare.
  rewrite !(Nat.mod_small _ (10 ^ 2)) by (simpl; lia).
  destruct (Nat.compare (month d1) (month d2)); try reflexivity.
  rewrite ?append_cons, ?append_empty. cbn [String.compare].
  rewrite ascii_compare_refl.
  rewrite fixed_digits_compare.
  now rewrite !(Nat.mod_small _ (10 ^ 2)) by (simpl; lia).
Qed.

End StringFacts.

(** ** The sort filter *)

Section SortTheorems.

Import PyStr SortFilter.

Variable float_repr : string -> option string.
Variable date_parse : string -> option date.

Abbreviation get_value := (SortFilter.get_value float_repr date_parse).
Abbreviation make_key := (SortFilter.make_key float_repr date_parse).
Abbreviation iter := (SortFilter.__iter__ float_repr date_parse).

Lemma upper_or_empty_str (s : string) : upper_or_empty (PyStr s) = upper s.
Proof. now destruct s. Qed.

Lemma get_value_plain (row : Row) (p : TagPattern) :
  numeric_suffix p = false -> endswith (tag p) "_date" = false ->
  get_value row p = Ok (upper_or_empty (pattern_get_value p row)).
Proof.
  unfold numeric_suffix, SortFilter.get_value. now intros -> ->.
Qed.

Lemma get_value_numeric (row : Row) (p : TagPattern) (s : string) :
  numeric_suffix p = true -> pattern_get_value p row = PyStr s ->
  get_value row p
  = Ok (upper (match float_repr s with
               | Some r => zfill 15 r
               | None => s
               end)).
Proof.
  unfold numeric_suffix, SortFilter.get_value. intros -> ->.
  unfold str_float. destruct (float_repr s); unfold bind;
    now rewrite upper_or_empty_str.
Qed.

Lemma get_value_date (row : Row) (p : TagPattern) (s : string) :
  endswith (tag p) "_date" = true -> pattern_get_value p row = PyStr s ->
  get_value row p
  = match date_parse s with
    | Some d => Ok (strftime_Ymd d)
    | None => Raise ValueError
    end.
Proof.
  intros Hd Hs. unfold SortFilter.get_value.
  rewrite (endswith_date_not_numeric _ Hd), Hd, Hs.
  unfold parse_strftime. destruct (date_parse s) as [d|]; unfold bind;
    [|reflexivity].
  now rewrite upper_or_empty_str, strftime_Ymd_upper.
Qed.

Lemma get_value_absent_typed (row : Row) (p : TagPattern) :
  pattern_get_value p row = PyNone ->
  numeric_suffix p || endswith (tag p) "_date" = true ->
  get_value row p = Raise TypeError.
Proof.
  unfold numeric_suffix, SortFilter.get_value. intros -> Hs.
  destruct (endswith (tag p) "_num" || endswith (tag p) "_deg");
    [reflexivity|].
  simpl in Hs. now rewrite Hs.
Qed.

Lemma get_value_upper (row : Row) (p : TagPattern) (k : string) :
  get_value row p = Ok k -> upper k = k.
Proof.
  unfold SortFilter.get_value.
  assert (forall v, upper (upper_or_empty v) = upper_or_empty v) as Hu.
  { intros [|s]; [reflexivity|]. rewrite upper_or_empty_str.
    apply upper_idempotent. }
  destruct (endswith (tag p) "_num" || endswith (tag p) "_deg").
  - destruct (str_float float_repr (pattern_get_value p row)) as [r|[]];
      unfold bind; try discriminate; intros [= <-];
        first [apply Hu | apply (Hu (PyStr _))].
  - destruct (endswith (tag p) "_date").
    + destruct (parse_strftime date_parse (pattern_get_value p row));
        unfold bind; try discriminate; intros [= <-];
        first [apply Hu | apply (Hu (PyStr _))].
    + unfold bind. intros [= <-]. apply Hu.
Qed.

Lemma make_key_raise (self : SortFilter.t) (row : Row) (p : TagPattern) e :
  In p (sort_tags self) -> get_value row p = Raise e ->
  exists e', make_key self row = Raise e'.
Proof.
  intros Hin Hp. unfold SortFilter.make_key.
  destruct (sort_tags self) as [|p0 ps] eqn:Etags; [destruct Hin|].
  rewrite <- Etags in *. now apply (comprehension_raise _ _ p e).
Qed.

Lemma iter_result (self : SortFilter.t) :
  fst (iter self)
  = sorted (make_key self) (reverse self) (Dataset.rows (source self)).
Proof. reflexivity. Qed.

Lemma sorted_perm {K X} `{PyOrdLaws K} (key : X -> result K) (reverse : bool)
  (xs out : list X) :
  sorted key reverse xs = Ok out -> Permutation out xs.
Proof.
  unfold sorted.
  destruct (comprehension (decorate key) xs) as [keyed|] eqn:Hk; simpl;
    [|discriminate].
  intros [= <-]. destruct (decorate_spec key xs keyed Hk) as [<- _].
  destruct (sort_decorated_keyed reverse keyed) as (l' & -> & Hp & _).
  now apply Permutation_map.
Qed.



(** A value the parser refuses under a pattern whose hashtag ends in
    [_date] makes [get_value] raise the parser's error, which ends the
    pass of every filter that sorts a row with that value by the
    pattern. *)
Lemma sort_date_refused (self : SortFilter.t) (pattern : TagPattern)
  (row : Row) (s : string) :
  In pattern (sort_tags self) ->
  In row (Dataset.rows (source self)) ->
  endswith (tag pattern) "_date" = true ->
  pattern_get_value pattern row = PyStr s ->
  date_parse s = None ->
  get_value row pattern = Raise ValueError
  /\ exists e, fst (iter self) = Raise e.
Proof.
  intros Hp Hrow Hd Hs Hnone.
  pose proof (get_value_date row pattern s Hd Hs) as Hg.
  rewrite Hnone in Hg. split; [exact Hg|].
  destruct (make_key_raise self row pattern _ Hp Hg) as [e He].
  rewrite iter_result. now apply (sorted_raise _ _ _ row e).
Qed.

(** Where the rendering does give the order of the dates: among dates
    whose years have four digits, which are keyed by ten characters. *)
Lemma sort_date_four_digit_years (row row' : Row) (pattern : TagPattern)
  (s s' : string) (d d' : date) :
  endswith (tag pattern) "_date" = true ->
  pattern_get_value pattern row = PyStr s ->
  pattern_get_value pattern row' = PyStr s' ->
  date_parse s = Some d -> date_parse s' = Some d' ->
  valid_date d -> valid_date d' ->
  four_digit_year d -> four_digit_year d' ->
  exists k k',
    get_value row pattern = Ok k /\ get_value row' pattern = Ok k'
    /\ String.length k = 10 /\ String.length k' = 10
    /\ String.compare k k' = date_compare d d'.
Proof.
  intros Hd Hs Hs' Hp Hp' Hv Hv' Hf Hf'.
  exists (strftime_Ymd d), (strftime_Ymd d').
  rewrite (get_value_date row pattern s Hd Hs), Hp.
  rewrite (get_value_date row' pattern s' Hd Hs'), Hp'.
  split; [reflexivity|]. split; [reflexivity|].
  split; [now apply strftime_Ymd_length|].
  split; [now apply strftime_Ymd_length|].
  now apply strftime_Ymd_compare.
Qed.

(** The date example of the specification: 15 January 2020 and
    1 December 2019 come out in the order of the calendar. *)
Lemma date_sort_example :
  date_parse "2020-01-15" = Some {| year := 2020; month := 1; day := 15 |} ->
  date_parse "2019-12-01" = Some {| year := 2019; month := 12; day := 1 |} ->
  fst (iter (dated_filter (dated_rows ["2020-01-15"; "2019-12-01"])))
  = Ok (dated_rows ["2019-12-01"; "2020-01-15"]).
Proof.
  intros H1 H2. rewrite iter_result.
  unfold sorted, decorate, SortFilter.make_key, SortFilter.get_value,
    parse_strftime.
  cbn. rewrite H1, H2. reflexivity.
Qed.

(** C6, at inputs where it fails. The dates 31 December 999 and
    15 January 2020 under [#report_date] are keyed ["999-12-31"], of nine
    characters, and ["2020-01-15"]: the later date has the smaller key,
    and the filter puts it before the earlier one. *)
Theorem date_key_misordered :
  date_parse "0999-12-31" = Some {| year := 999; month := 12; day := 31 |} ->
  date_parse "2020-01-15" = Some {| year := 2020; month := 1; day := 15 |} ->
  make_key (dated_filter []) (sort_row ["org"; "1"; "0999-12-31"])
  = Ok ["999-12-31"]
  /\ make_key (dated_filter []) (sort_row ["org"; "1"; "2020-01-15"])
     = Ok ["2020-01-15"]
  /\ date_compare {| year := 999; month := 12; day := 31 |}
       {| year := 2020; month := 1; day := 15 |} = Lt
  /\ String.compare "999-12-31" "2020-01-15" = Gt
  /\ fst (iter (dated_filter (dated_rows ["0999-12-31"; "2020-01-15"])))
     = Ok (dated_rows ["2020-01-15"; "0999-12-31"]).
Proof.
  intros H1 H2. rewrite !iter_result.
  unfold sorted, decorate, SortFilter.make_key, SortFilter.get_value,
    parse_strftime.
  cbn. rewrite H1, H2. repeat split.
Qed.

(** C7. For a pattern whose hashtag ends in [_num] or [_deg], a value
    that [float] refuses raises nothing: the key component is the value
    itself, upper-cased; and a filter that sorts by such patterns only,
    over rows that have values for them, always yields its rows. *)
Theorem sort_numeric_fallback (self : SortFilter.t) (pattern : TagPattern)
  (row : Row) (s : string) :
  numeric_suffix pattern = true ->
  pattern_get_value pattern row = PyStr s ->
  float_repr s = None ->
  get_value row pattern = Ok (upper s)
  /\ ((forall p, In p (sort_tags self) -> numeric_suffix p = true) ->
      (forall r p, In r (Dataset.rows (source self)) ->
                   In p (sort_tags self) ->
                   exists v, pattern_get_value p r = PyStr v) ->
      exists out,
        fst (iter self) = Ok out
        /\ Permutation out (Dataset.rows (source self))).
Proof.
  intros Hn Hs Hf. split.
  - now rewrite (get_value_numeric row pattern s Hn Hs), Hf.
  - intros Hnum Hval.
    destruct (sorted_spec (make_key self) (reverse self)
                (Dataset.rows (source self)))
      as (out & _ & Ho & Hp & _).
    + intros r Hr. unfold SortFilter.make_key.
      destruct (sort_tags self) as [|p0 ps] eqn:Etags; [now eexists|].
      rewrite <- Etags in *. apply comprehension_ok. intros p Hp.
      destruct (Hval r p Hr Hp) as [v Hv].
      rewrite (get_value_numeric r p v (Hnum p Hp) Hv). now eexists.
    + exists out. now rewrite iter_result.
Qed.

(** Where the padding does give the numeric order: among natural
    numbers below [10 ^ 12] written as plain numerals, which [float]
    and [str] turn into the numeral followed by [".0"]. *)
Lemma numeric_key_naturals (row row' : Row) (p : TagPattern) (n m : nat) :
  (forall k, k < 10 ^ 12 ->
             float_repr (decimal k) = Some (decimal k ++ ".0")%string) ->
  numeric_suffix p = true -> n < 10 ^ 12 -> m < 10 ^ 12 ->
  pattern_get_value p row = PyStr (decimal n) ->
  pattern_get_value p row' = PyStr (decimal m) ->
  exists kn km,
    get_value row p = Ok kn /\ get_value row' p = Ok km
    /\ String.compare kn km = Nat.compare n m.
Proof.
  intros Hfloat Hp Hn Hm Hv Hv'.
  exists (fixed_digits 13 n ++ ".0")%string, (fixed_digits 13 m ++ ".0")%string.
  rewrite (get_value_numeric row p _ Hp Hv), (Hfloat n Hn), (zfill_decimal n Hn).
  rewrite (get_value_numeric row' p _ Hp Hv'), (Hfloat m Hm),
    (zfill_decimal m Hm).
  rewrite !upper_app, !upper_fixed_digits.
  repeat split. now apply padded_numeral_compare.
Qed.

(** The numeric example of the specification: 2, 10 and 1 come out as
    1, 2 and 10. *)
Lemma numeric_sort_example :
  float_repr "2" = Some "2.0" ->
  float_repr "10" = Some "10.0" ->
  float_repr "1" = Some "1.0" ->
  fst (iter (__init__ (sort_source (numeric_rows ["2"; "10"; "1"]))
               [hashtag "#value_num"] false))
  = Ok (numeric_rows ["1"; "2"; "10"]).
Proof.
  intros H2 H10 H1. rewrite iter_result.
  unfold sorted, decorate, SortFilter.make_key, SortFilter.get_value, str_float.
  cbn. rewrite H2, H10, H1. reflexivity.
Qed.

(** C2, at inputs where it fails. The values 0.5 and 0.75 under
    [#value_num] are keyed ["0000000000000.5"] and ["000000000000.75"],
    and -5 and -10 are keyed ["-000000000005.0"] and
    ["-000000000010.0"]: the filter puts 0.75 before 0.5 and -5 before
    -10. *)
Theorem numeric_key_misordered :
  float_repr "0.5" = Some "0.5" ->
  float_repr "0.75" = Some "0.75" ->
  float_repr "-5" = Some "-5.0" ->
  float_repr "-10" = Some "-10.0" ->
  make_key (__init__ (sort_source []) [hashtag "#value_num"] false)
    (sort_row ["org"; "0.5"; "2020-01-01"]) = Ok ["0000000000000.5"]
  /\ make_key (__init__ (sort_source []) [hashtag "#value_num"] false)
       (sort_row ["org"; "0.75"; "2020-01-01"]) = Ok ["000000000000.75"]
  /\ fst (iter (__init__ (sort_source (numeric_rows ["0.5"; "0.75"]))
                  [hashtag "#value_num"] false))
     = Ok (numeric_rows ["0.75"; "0.5"])
  /\ fst (iter (__init__ (sort_source (numeric_rows ["-10"; "-5"]))
                  [hashtag "#value_num"] false))
     = Ok (numeric_rows ["-5"; "-10"]).
Proof.
  intros H1 H2 H3 H4. rewrite !iter_result.
  unfold sorted, decorate, SortFilter.make_key, SortFilter.get_value, str_float.
  cbn. rewrite H1, H2, H3, H4. repeat split.
Qed.

(** C8, at inputs where it fails. A row without a value for a pattern
    whose hashtag ends in [_num], [_deg] or [_date] gets no key component
    at all: [get_value] raises, and so does every filter that sorts the
    row by the pattern. *)
Theorem missing_value_typed_pattern (self : SortFilter.t)
  (pattern : TagPattern) (row : Row) :
  In pattern (sort_tags self) ->
  In row (Dataset.rows (source self)) ->
  pattern_get_value pattern row = PyNone ->
  numeric_suffix pattern || endswith (tag pattern) "_date" = true ->
  get_value row pattern = Raise TypeError
  /\ exists e, fst (iter self) = Raise e.
Proof.
  intros Hp Hrow Hv Hs.
  pose proof (get_value_absent_typed row pattern Hv Hs) as Hg.
  split; [exact Hg|].
  destruct (make_key_raise self row pattern _ Hp Hg) as [e He].
  rewrite iter_result. now apply (sorted_raise _ _ _ row e).
Qed.

(** An empty value under a date pattern gets no empty component
    either, whatever the parser makes of the empty string. *)
Lemma empty_value_date_pattern (row : Row) (p : TagPattern) :
  endswith (tag p) "_date" = true ->
  pattern_get_value p row = PyStr "" ->
  get_value row p <> Ok "".
Proof.
  intros Hd Hv. rewrite (get_value_date row p "" Hd Hv).
  destruct (date_parse "") as [d|]; [|discriminate].
  intros [= He]. now apply (strftime_Ymd_nonempty d).
Qed.

(** What does hold of the key components: they are upper-cased, values
    that differ in letter case only get the same component, a missing
    value under a pattern without a suffix becomes the empty string, and
    the empty string is smaller than every other string. *)
Lemma key_components (row : Row) (p : TagPattern) :
  (forall k, get_value row p = Ok k -> upper k = k)
  /\ (numeric_suffix p = false -> endswith (tag p) "_date" = false ->
      forall row' s,
        pattern_get_value p row = PyStr s ->
        pattern_get_value p row' = PyStr (lower s) ->
        get_value row p = get_value row' p)
  /\ (numeric_suffix p = false -> endswith (tag p) "_date" = false ->
      pattern_get_value p row = PyNone -> get_value row p = Ok "")
  /\ (forall k, k <> "" -> py_ltb "" k = true).
Proof.
  split; [|split; [|split]].
  - apply get_value_upper.
  - intros Hn Hd row' s Hs Hs'.
    rewrite !get_value_plain, Hs, Hs' by assumption.
    now rewrite !upper_or_empty_str, upper_lower.
  - intros Hn Hd Hv. now rewrite get_value_plain, Hv by assumption.
  - apply empty_string_first.
Qed.

(** C9. The [columns] of a sort filter are the columns of its source,
    when it is built and after it has been iterated, and the rows it
    yields are the rows of the source in another order. *)
Theorem sort_columns_unchanged (source : Dataset.t) (tags : list TagPattern)
  (reverse : bool) :
  SortFilter.columns (__init__ source tags reverse) = Dataset.columns source
  /\ SortFilter.columns (snd (iter (__init__ source tags reverse)))
     = Dataset.columns source
  /\ match fst (iter (__init__ source tags reverse)) with
     | Ok out => Permutation out (Dataset.rows source)
     | Raise _ => True
     end.
Proof.
  split; [reflexivity|]. split; [reflexivity|].
  rewrite iter_result.
  destruct (sorted _ _ _) as [out|] eqn:Hs; [|exact I].
  now apply sorted_perm in Hs.
Qed.

End SortTheorems.

(** ** The theorems at concrete inputs *)





Lemma date_key_misordered_witness :
  SortFilter.make_key decimal_float_repr iso_date_parse (dated_filter [])
    (sort_row ["org"; "1"; "0999-12-31"]) = Ok ["999-12-31"]
  /\ SortFilter.make_key decimal_float_repr iso_date_parse (dated_filter [])
       (sort_row ["org"; "1"; "2020-01-15"]) = Ok ["2020-01-15"]
  /\ date_compare {| year := 999; month := 12; day := 31 |}
       {| year := 2020; month := 1; day := 15 |} = Lt
  /\ String.compare "999-12-31" "2020-01-15" = Gt
  /\ fst (example_iter
            (dated_filter (dated_rows ["0999-12-31"; "2020-01-15"])))
     = Ok (dated_rows ["2020-01-15"; "0999-12-31"]).
Proof.
  apply (date_key_misordered decimal_float_repr iso_date_parse); reflexivity.
Defined.

Lemma sort_numeric_fallback_witness :
  SortFilter.get_value decimal_float_repr iso_date_parse
    (sort_row ["Oxfam"; "n/a"; "2020-01-15"]) (hashtag "#value_num")
  = Ok "N/A"
  /\ ((forall p, In p [hashtag "#value_num"] -> numeric_suffix p = true) ->
      (forall r p,
          In r (numeric_rows ["n/a"; "7"]) -> In p [hashtag "#value_num"] ->
          exists v, pattern_get_value p r = PyStr v) ->
      exists out,
        fst (example_iter (valued_filter (numeric_rows ["n/a"; "7"])))
        = Ok out
        /\ Permutation out (numeric_rows ["n/a"; "7"])).
Proof.
  apply (sort_numeric_fallback decimal_float_repr iso_date_parse
           (valued_filter (numeric_rows ["n/a"; "7"]))
           (hashtag "#value_num") (sort_row ["Oxfam"; "n/a"; "2020-01-15"])
           "n/a"); reflexivity.
Defined.

Lemma numeric_key_misordered_witness :
  fst (example_iter (valued_filter (numeric_rows ["0.5"; "0.75"])))
  = Ok (numeric_rows ["0.75"; "0.5"])
  /\ fst (example_iter (valued_filter (numeric_rows ["-10"; "-5"])))
     = Ok (numeric_rows ["-5"; "-10"]).
Proof.
  destruct (numeric_key_misordered decimal_float_repr iso_date_parse)
    as (_ & _ & H1 & H2); try reflexivity.
  split; [exact H1 | exact H2].
Defined.

Lemma missing_value_typed_pattern_witness :
  SortFilter.get_value decimal_float_repr iso_date_parse short_row
    (hashtag "#report_date") = Raise TypeError
  /\ exists e, fst (example_iter (dated_filter [short_row])) = Raise e.
Proof.
  apply (missing_value_typed_pattern decimal_float_repr iso_date_parse
           (dated_filter [short_row]) (hashtag "#report_date") short_row);
    simpl; auto.
Defined.

(** ** More about the count command *)

Section CountMore.

Variable row_get : Row -> string -> option string.

Lemma extract_values_length (row : Row) (tags : list string) :
  List.length (extract_values row_get row tags) <= List.length tags.
Proof.
  induction tags as [|tag tags IH]; simpl; [lia|].
  destruct (row_get row tag); simpl; lia.
Qed.

Lemma occurrences_le (tags : list string) (input : list Row) key :
  occurrences row_get tags input key <= List.length input.
Proof.
  unfold occurrences. apply List.filter_length_le.
Qed.

Lemma occurrences_pos (tags : list string) (input : list Row) key :
  0 < occurrences row_get tags input key ->
  exists row, In row input /\ extract_values row_get row tags = key.
Proof.
  unfold occurrences.
  destruct (List.filter _ input) as [|row l] eqn:Hf; simpl; [lia|].
  intros _. exists row.
  assert (In row (List.filter
                    (fun row => py_eqb (extract_values row_get row tags) key)
                    input)) as Hin by (rewrite Hf; now left).
  apply filter_In in Hin as [Hin Hk]. split; [exact Hin|].
  now apply seq_eqb_eq in Hk.
Qed.

Lemma occurrences_app (tags : list string) (input1 input2 : list Row) key :
  occurrences row_get tags (input1 ++ input2) key
  = occurrences row_get tags input1 key + occurrences row_get tags input2 key.
Proof.
  unfold occurrences. now rewrite List.filter_app, List.length_app.
Qed.

Lemma recorded_count_occurrences (tags : list string) (input : list Row) key :
  recorded_count row_get tags input key
  = if truthy_list key then occurrences row_get tags input key else 0.
Proof.
  unfold recorded_count.
  destruct (count_rows_spec row_get tags input) as [_ ->].
  destruct key as [|k key]; [reflexivity|]. simpl.
  now destruct (occurrences row_get tags input (k :: key)).
Qed.

Lemma length_le_sum (items : list (list string * nat)) :
  (forall a, In a items -> 0 < snd a) ->
  List.length items <= list_sum (map snd items).
Proof.
  induction items as [|a items IH]; simpl; intros Hpos; [lia|].
  pose proof (Hpos a (or_introl eq_refl)).
  assert (List.length items <= list_sum (map snd items))
    by (apply IH; intros; apply Hpos; now right).
  lia.
Qed.

(** What a call writes, in terms of the mapping after the loop. *)
Lemma hxlcount_written (input : list Row) (tags : ref) (st : store)
  (tag_list : list string) :
  st !! tags = Some tag_list ->
  hxlcount row_get input tags st
  = Some (map CStr (tag_list ++ ["#x_total_num"])
            :: map aggregate_row
                 (sorted_plain (count_rows row_get tag_list input)),
          <[tags := tag_list ++ ["#x_total_num"]]> st)
  /\ (forall key n,
         In (key, n) (sorted_plain (count_rows row_get tag_list input))
         <-> key <> [] /\ n = occurrences row_get tag_list input key /\ 0 < n)
  /\ list_sum (map snd (sorted_plain (count_rows row_get tag_list input)))
     = List.length
         (List.filter (fun row => negb (fully_absent row_get tag_list row))
            input).
Proof.
  intros Hst. unfold hxlcount. rewrite Hst. split; [reflexivity|].
  pose proof (sorted_plain_perm (count_rows row_get tag_list input)) as Hperm.
  split.
  - intros key n. rewrite <- count_rows_In.
    split; apply Permutation_in; [exact Hperm | now symmetry].
  - rewrite (Permutation_list_sum (Permutation_map snd Hperm)).
    apply count_rows_sum.
Qed.

(** X1. The written data rows are never wider than the header: a row has
    one cell per tag that has a value in its group, at least one, and
    then the count, which lies between 1 and the number of input rows. *)
Theorem hxlcount_row_shape (input : list Row) (tags : ref) (st : store)
  (tag_list : list string) :
  st !! tags = Some tag_list ->
  exists header data st',
    hxlcount row_get input tags st = Some (header :: data, st')
    /\ List.length header = S (List.length tag_list)
    /\ forall row, In row data ->
         exists key n,
           row = map CStr key ++ [CInt n]
           /\ 1 <= List.length key <= List.length tag_list
           /\ 1 <= n <= List.length input
           /\ List.length row <= List.length header.
Proof.
  intros Hst.
  destruct (hxlcount_written input tags st tag_list Hst) as (Hrun & Hin & _).
  set (aggregates := sorted_plain (count_rows row_get tag_list input)) in *.
  exists (map CStr (tag_list ++ ["#x_total_num"])),
    (map aggregate_row aggregates),
    (<[tags := tag_list ++ ["#x_total_num"]]> st).
  split; [exact Hrun|]. split.
  - rewrite length_map, List.length_app. simpl. lia.
  - intros row Hrow. apply in_map_iff in Hrow as ([key n] & <- & Ha).
    apply Hin in Ha as (Hne & -> & Hpos).
    destruct (occurrences_pos tag_list input key Hpos) as (r & _ & <-).
    pose proof (extract_values_length r tag_list) as Hlen.
    pose proof (occurrences_le tag_list input
                  (extract_values row_get r tag_list)) as Hocc.
    exists (extract_values row_get r tag_list),
      (occurrences row_get tag_list input (extract_values row_get r tag_list)).
    split; [reflexivity|].
    assert (1 <= List.length (extract_values row_get r tag_list)) as H1.
    { destruct (extract_values row_get r tag_list); [congruence | simpl; lia]. }
    unfold aggregate_row. simpl fst. simpl snd.
    rewrite !List.length_app, !length_map, List.length_app. simpl. lia.
Qed.

(** X2. There are at most as many data rows as input rows with a value
    under some tag, and none at all exactly when every input row is
    fully absent (in particular on empty input): then the header is all
    that is written. *)
Theorem hxlcount_row_count (input : list Row) (tags : ref) (st : store)
  (tag_list : list string) :
  st !! tags = Some tag_list ->
  exists header data st',
    hxlcount row_get input tags st = Some (header :: data, st')
    /\ List.length data
       <= List.length
            (List.filter (fun row => negb (fully_absent row_get tag_list row))
               input)
    /\ List.length data <= List.length input
    /\ (data = [] <->
        forall row, In row input -> fully_absent row_get tag_list row = true).
Proof.
  intros Hst.
  destruct (hxlcount_written input tags st tag_list Hst) as (Hrun & Hin & Hsum).
  set (aggregates := sorted_plain (count_rows row_get tag_list input)) in *.
  exists (map CStr (tag_list ++ ["#x_total_num"])),
    (map aggregate_row aggregates),
    (<[tags := tag_list ++ ["#x_total_num"]]> st).
  split; [exact Hrun|]. clearbody aggregates.
  pose proof (filter_split_length (fully_absent row_get tag_list) input) as Hsplit.
  assert (List.length aggregates <= list_sum (map snd aggregates)) as Hle.
  { apply length_le_sum. intros [key n] Ha. now apply Hin in Ha. }
  rewrite length_map.
  split; [lia|]. split; [lia|]. split.
  - intros Hnil. destruct aggregates as [|a aggregates]; [|discriminate].
    simpl in Hsum.
    assert (List.length (List.filter (fully_absent row_get tag_list) input)
            = List.length input) as Hall by lia.
    apply filter_length_forallb in Hall.
    intros row Hrow. rewrite forallb_forall in Hall. now apply Hall.
  - intros Hall. destruct aggregates as [|[key n] aggregates]; [reflexivity|].
    exfalso.
    destruct (Hin key n) as [(Hne & -> & Hpos) _]; [now left|].
    destruct (occurrences_pos tag_list input key Hpos) as (r & Hr & <-).
    apply Hne. apply extract_values_nil. now apply Hall.
Qed.

(** X3. Counting is additive: over two inputs one after the other, the
    count written for a tuple is the sum of the counts recorded for it
    over each of the inputs (0 where the tuple does not occur). *)
Theorem hxlcount_additive (input1 input2 : list Row) (tags : ref) (st : store)
  (tag_list : list string) :
  st !! tags = Some tag_list ->
  exists aggregates st',
    hxlcount row_get (input1 ++ input2) tags st
    = Some (map CStr (tag_list ++ ["#x_total_num"])
              :: map aggregate_row aggregates, st')
    /\ (forall key,
           recorded_count row_get tag_list (input1 ++ input2) key
           = recorded_count row_get tag_list input1 key
             + recorded_count row_get tag_list input2 key)
    /\ (forall key n,
           In (key, n) aggregates
           <-> 0 < n
               /\ n = recorded_count row_get tag_list input1 key
                      + recorded_count row_get tag_list input2 key).
Proof.
  intros Hst.
  destruct (hxlcount_written (input1 ++ input2) tags st tag_list Hst)
    as (Hrun & Hin & _).
  eexists _, _. split; [exact Hrun|].
  assert (forall key,
             recorded_count row_get tag_list (input1 ++ input2) key
             = recorded_count row_get tag_list input1 key
               + recorded_count row_get tag_list input2 key) as Hadd.
  { intros key. rewrite !recorded_count_occurrences, occurrences_app.
    now destruct (truthy_list key). }
  split; [exact Hadd|].
  intros key n. rewrite Hin, <- Hadd, recorded_count_occurrences.
  destruct key as [|k key]; simpl.
  - split; [intros [? _]; congruence | lia].
  - split; [intros (_ & -> & Hpos); split; [exact Hpos | reflexivity]|].
    intros [Hpos ->]. repeat split; [discriminate | exact Hpos].
Qed.

Lemma extract_values_app (row : Row) (tags1 tags2 : list string) :
  extract_values row_get row (tags1 ++ tags2)
  = extract_values row_get row tags1 ++ extract_values row_get row tags2.
Proof.
  induction tags1 as [|tag tags1 IH]; simpl; [reflexivity|].
  destruct (row_get row tag); simpl; now rewrite IH.
Qed.

(** The loop sees a row only through the list of its values. *)
Lemma count_rows_values (tags tags' : list string) (input input' : list Row) :
  map (fun row => extract_values row_get row tags) input
  = map (fun row => extract_values row_get row tags') input' ->
  count_rows row_get tags input = count_rows row_get tags' input'.
Proof.
  unfold count_rows. generalize (@nil (list string * nat)).
  revert input'. induction input as [|row input IH];
    intros [|row' input'] stats; simpl; try discriminate; [reflexivity|].
  intros [= Hrow Hrest]. rewrite <- (IH input' _ Hrest). f_equal.
  unfold count_row. now rewrite Hrow.
Qed.

(** X4. The rows written depend on the input rows only through the lists of
    their present values: which tag a value was found under is not
    recorded, so rows with the same values under different tags fall
    into one group. *)
Theorem hxlcount_values_only (input input' : list Row) (tags : ref)
  (st : store) (tag_list : list string) :
  st !! tags = Some tag_list ->
  map (fun row => extract_values row_get row tag_list) input
  = map (fun row => extract_values row_get row tag_list) input' ->
  hxlcount row_get input tags st = hxlcount row_get input' tags st.
Proof.
  intros Hst Hvalues. unfold hxlcount. rewrite Hst.
  now rewrite (count_rows_values tag_list tag_list input input' Hvalues).
Qed.

(** X5. A tag under which no input row has a value changes the header and
    nothing else: the data rows are those written without the tag. *)
Theorem hxlcount_inert_tag (input : list Row) (tags tags' : ref)
  (st st' : store) (before after : list string) (tag : string) :
  (forall row, In row input -> row_get row tag = None) ->
  st !! tags = Some (before ++ tag :: after) ->
  st' !! tags' = Some (before ++ after) ->
  exists header header' data st1 st1',
    hxlcount row_get input tags st = Some (header :: data, st1)
    /\ hxlcount row_get input tags' st' = Some (header' :: data, st1')
    /\ List.length header = S (List.length header').
Proof.
  intros Hnone Hst Hst'. unfold hxlcount. rewrite Hst, Hst'.
  eexists _, _, _, _, _. split; [reflexivity|]. split.
  - do 3 f_equal.
    rewrite (count_rows_values (before ++ after) (before ++ tag :: after)
               input input); [reflexivity|].
    apply map_ext_in. intros row Hrow.
    rewrite !extract_values_app. simpl. now rewrite (Hnone row Hrow).
  - rewrite !length_map, !List.length_app. simpl. lia.
Qed.

(** X6. Calling the command again with the same list, on rows that carry no
    [#x_total_num] column: the second call writes the data rows of the
    first under a header that is one column longer. *)
Theorem hxlcount_second_call (input : list Row) (tags : ref) (st : store)
  (tag_list : list string) :
  (forall row, In row input -> row_get row "#x_total_num" = None) ->
  st !! tags = Some tag_list ->
  exists header data st' st'',
    hxlcount row_get input tags st = Some (header :: data, st')
    /\ hxlcount row_get input tags st'
       = Some ((header ++ [CStr "#x_total_num"]) :: data, st'').
Proof.
  intros Hnone Hst. unfold hxlcount at 1. rewrite Hst.
  eexists _, _, _, _. split; [reflexivity|].
  unfold hxlcount. rewrite lookup_insert_eq.
  rewrite (count_rows_values (tag_list ++ ["#x_total_num"]) tag_list
             input input).
  - now rewrite (map_app CStr (tag_list ++ ["#x_total_num"])).
  - apply map_ext_in. intros row Hrow. rewrite extract_values_app. simpl.
    rewrite (Hnone row Hrow). apply app_nil_r.
Qed.

End CountMore.

Lemma hxlcount_row_shape_witness :
  exists header data st',
    hxlcount get_by_hashtag example_input 1%positive example_store
    = Some (header :: data, st')
    /\ List.length header = S (List.length example_tags)
    /\ forall row, In row data ->
         exists key n,
           row = map CStr key ++ [CInt n]
           /\ 1 <= List.length key <= List.length example_tags
           /\ 1 <= n <= List.length example_input
           /\ List.length row <= List.length header.
Proof.
  apply (hxlcount_row_shape get_by_hashtag example_input 1%positive
           example_store example_tags).
  reflexivity.
Defined.

Lemma hxlcount_row_count_witness :
  exists header data st',
    hxlcount get_by_hashtag example_input 1%positive example_store
    = Some (header :: data, st')
    /\ List.length data
       <= List.length
            (List.filter
               (fun row => negb (fully_absent get_by_hashtag example_tags row))
               example_input)
    /\ List.length data <= List.length example_input
    /\ (data = [] <->
        forall row, In row example_input ->
                    fully_absent get_by_hashtag example_tags row = true).
Proof.
  apply (hxlcount_row_count get_by_hashtag example_input 1%positive
           example_store example_tags).
  reflexivity.
Defined.

Lemma hxlcount_additive_witness :
  exists aggregates st',
    hxlcount get_by_hashtag (example_input ++ example_input) 1%positive
      example_store
    = Some (map CStr (example_tags ++ ["#x_total_num"])
              :: map aggregate_row aggregates, st')
    /\ (forall key,
           recorded_count get_by_hashtag example_tags
             (example_input ++ example_input) key
           = recorded_count get_by_hashtag example_tags example_input key
             + recorded_count get_by_hashtag example_tags example_input key)
    /\ (forall key n,
           In (key, n) aggregates
           <-> 0 < n
               /\ n = recorded_count get_by_hashtag example_tags
                        example_input key
                      + recorded_count get_by_hashtag example_tags
                          example_input key).
Proof.
  apply (hxlcount_additive get_by_hashtag example_input example_input
           1%positive example_store example_tags).
  reflexivity.
Defined.

Lemma hxlcount_values_only_witness :
  hxlcount get_by_hashtag [single_row "#sector" "x"] 1%positive example_store
  = hxlcount get_by_hashtag [single_row "#adm1" "x"] 1%positive example_store.
Proof.
  apply (hxlcount_values_only get_by_hashtag [single_row "#sector" "x"]
           [single_row "#adm1" "x"] 1%positive example_store example_tags);
    reflexivity.
Defined.

Lemma hxlcount_inert_tag_witness :
  exists header header' data st1 st1',
    hxlcount get_by_hashtag example_input 1%positive two_lists
    = Some (header :: data, st1)
    /\ hxlcount get_by_hashtag example_input 2%positive two_lists
       = Some (header' :: data, st1')
    /\ List.length header = S (List.length header').
Proof.
  apply (hxlcount_inert_tag get_by_hashtag example_input 1%positive
           2%positive two_lists two_lists ["#sector"] ["#adm1"] "#org");
    [|reflexivity|reflexivity].
  intros row [<-|[<-|[<-|[<-|[<-|[]]]]]]; reflexivity.
Defined.

Lemma hxlcount_second_call_witness :
  exists header data st' st'',
    hxlcount get_by_hashtag example_input 1%positive example_store
    = Some (header :: data, st')
    /\ hxlcount get_by_hashtag example_input 1%positive st'
       = Some ((header ++ [CStr "#x_total_num"]) :: data, st'').
Proof.
  apply (hxlcount_second_call get_by_hashtag example_input 1%positive
           example_store example_tags); [|reflexivity].
  intros row [<-|[<-|[<-|[<-|[<-|[]]]]]]; reflexivity.
Defined.

(** ** More about [sorted] *)

Section SortedMore.

Context {K A : Type} `{PyOrdLaws K}.

Variable key : A -> result K.

(** Sorting looks at a list only through the order of the elements of
    each key. *)
Lemma sort_decorated_stable_eq (reverse : bool) (l l' : list (K * A)) :
  (forall k, List.filter (fun p => py_eqb k (fst p)) l
             = List.filter (fun p => py_eqb k (fst p)) l') ->
  sort_decorated reverse l = sort_decorated reverse l'.
Proof.
  intros Hf. destruct reverse.
  - rewrite !sort_decorated_backward. do 2 f_equal.
    apply stable_sort_unique; try apply sort_keyed_ascending.
    intros k. now rewrite !sort_keyed_filter, !filter_rev, Hf.
  - rewrite !sort_decorated_forward. f_equal.
    apply stable_sort_unique; try apply sort_keyed_ascending.
    intros k. now rewrite !sort_keyed_filter.
Qed.

Lemma decorate_well_keyed (l : list (K * A)) :
  well_keyed key l -> comprehension (decorate key) (map snd l) = Ok l.
Proof.
  induction 1 as [|[k x] l Hp _ IH]; simpl; [reflexivity|].
  unfold decorate at 1. simpl in Hp. rewrite Hp. simpl. now rewrite IH.
Qed.

(** Sorting what a sort has returned is sorting the original list. *)
Lemma sorted_resort (reverse reverse' : bool) (xs out : list A) :
  sorted key reverse xs = Ok out ->
  sorted key reverse' out = sorted key reverse' xs.
Proof.
  unfold sorted.
  destruct (comprehension (decorate key) xs) as [keyed|] eqn:Hk; simpl;
    [|discriminate].
  intros [= <-]. destruct (decorate_spec key xs keyed Hk) as [_ Hw].
  destruct (sort_decorated_keyed reverse keyed) as (l' & -> & Hp & Hf & _).
  rewrite decorate_well_keyed.
  - simpl. f_equal. now apply sort_decorated_stable_eq.
  - eapply Permutation_Forall; [symmetry; exact Hp | exact Hw].
Qed.

Lemma decorate_keys (xs : list A) (keys : list K) :
  comprehension key xs = Ok keys ->
  exists keyed,
    comprehension (decorate key) xs = Ok keyed /\ map fst keyed = keys.
Proof.
  revert keys. induction xs as [|x xs IH]; simpl; intros keys Hk.
  - injection Hk as <-. now exists [].
  - unfold decorate at 1. destruct (key x) as [k|]; simpl in *; [|discriminate].
    destruct (comprehension key xs) as [ks|]; simpl in *; [|discriminate].
    injection Hk as <-. destruct (IH ks eq_refl) as (keyed & -> & <-).
    simpl. now eexists.
Qed.

Lemma decorate_perm (xs xs' : list A) (keyed : list (K * A)) :
  Permutation xs xs' ->
  comprehension (decorate key) xs = Ok keyed ->
  exists keyed',
    comprehension (decorate key) xs' = Ok keyed' /\ Permutation keyed keyed'.
Proof.
  intros Hp. revert keyed.
  induction Hp as [|x l l' _ IH|x y l|l l' l'' _ IH1 _ IH2]; intros keyed.
  - intros [= <-]. now exists [].
  - simpl. destruct (decorate key x) as [p|]; simpl; [|discriminate].
    destruct (comprehension (decorate key) l) as [ps|]; simpl; [|discriminate].
    intros [= <-]. destruct (IH ps eq_refl) as (ps' & -> & Hps).
    simpl. eexists. split; [reflexivity|]. now constructor.
  - simpl. destruct (decorate key y) as [q|]; simpl; [|discriminate].
    destruct (decorate key x) as [p|]; simpl; [|discriminate].
    destruct (comprehension (decorate key) l) as [ps|]; simpl; [|discriminate].
    intros [= <-]. eexists. split; [reflexivity|]. apply perm_swap.
  - intros Hk. destruct (IH1 keyed Hk) as (keyed' & Hk' & Hp1).
    destruct (IH2 keyed' Hk') as (keyed'' & Hk'' & Hp2).
    exists keyed''. split; [exact Hk''|]. now transitivity keyed'.
Qed.

Lemma sort_decorated_perm_distinct (reverse : bool) (l l' : list (K * A)) :
  List.NoDup (map fst l) -> Permutation l l' ->
  sort_decorated reverse l = sort_decorated reverse l'.
Proof.
  intros Hnd Hp. destruct reverse.
  - rewrite !sort_decorated_backward. do 2 f_equal.
    apply ascending_unique; try apply sort_keyed_ascending.
    + eapply Permutation.Permutation_NoDup; [|exact Hnd]. symmetry.
      apply Permutation_map. rewrite sort_keyed_perm. symmetry.
      apply Permutation_rev.
    + rewrite !sort_keyed_perm, <- !Permutation_rev. exact Hp.
  - rewrite !sort_decorated_forward. f_equal.
    apply ascending_unique; try apply sort_keyed_ascending.
    + eapply Permutation.Permutation_NoDup; [|exact Hnd]. symmetry.
      apply Permutation_map, sort_keyed_perm.
    + now rewrite !sort_keyed_perm.
Qed.

(** With pairwise distinct keys the order of the input does not matter. *)
Lemma sorted_perm_distinct (reverse : bool) (xs xs' : list A) (keys : list K) :
  Permutation xs xs' -> comprehension key xs = Ok keys -> List.NoDup keys ->
  sorted key reverse xs' = sorted key reverse xs.
Proof.
  intros Hp Hk Hnd. unfold sorted.
  destruct (decorate_keys xs keys Hk) as (keyed & Hd & <-).
  destruct (decorate_perm xs xs' keyed Hp Hd) as (keyed' & Hd' & Hpk).
  rewrite Hd, Hd'. simpl. f_equal. symmetry.
  now apply sort_decorated_perm_distinct.
Qed.

Lemma comprehension_Forall2 {X Y} (f : X -> result Y) (xs : list X)
  (ys : list Y) :
  comprehension f xs = Ok ys -> List.Forall2 (fun x y => f x = Ok y) xs ys.
Proof.
  revert ys. induction xs as [|x xs IH]; simpl; intros ys.
  - intros [= <-]. constructor.
  - destruct (f x) as [y|] eqn:Hx; simpl; [|discriminate].
    destruct (comprehension f xs) as [ys'|]; simpl; [|discriminate].
    intros [= <-]. constructor; [exact Hx | now apply IH].
Qed.

End SortedMore.

(** ** More about the sort filter *)

Lemma fixed_digits_N_nat (w : nat) (n : N) :
  fixed_digits_N w n = fixed_digits w (N.to_nat n).
Proof.
  induction w as [|w IH]; [reflexivity|].
  cbn [fixed_digits_N fixed_digits]. rewrite IH. do 2 f_equal.
  rewrite N2Nat.inj_mod, N2Nat.inj_div, N2Nat.inj_pow, Nat2N.id.
  reflexivity.
Qed.

Lemma numeral_decimal (n : N) : numeral n = decimal (N.to_nat n).
Proof. unfold numeral, decimal. now rewrite fixed_digits_N_nat. Qed.

Lemma to_nat_below (n : N) : (n < 10 ^ 12)%N -> N.to_nat n < 10 ^ 12.
Proof.
  intros Hn.
  change (10 ^ 12) with (N.to_nat 10 ^ N.to_nat 12).
  rewrite <- N2Nat.inj_pow. lia.
Qed.

Lemma string_length_app (s t : string) :
  String.length (s ++ t) = String.length s + String.length t.
Proof.
  induction s as [|c s IH]; [reflexivity|].
  rewrite append_cons. simpl. now rewrite IH.
Qed.

Lemma length_zeros (n : nat) : String.length (PyStr.zeros n) = n.
Proof. induction n as [|n IH]; simpl; [reflexivity | now rewrite IH]. Qed.

Lemma length_upper (s : string) :
  String.length (PyStr.upper s) = String.length s.
Proof. induction s as [|c s IH]; simpl; [reflexivity | now rewrite IH]. Qed.

(** [zfill] pads up to the width and never cuts. *)
Lemma length_zfill (w : nat) (s : string) :
  String.length (PyStr.zfill w s) = Nat.max w (String.length s).
Proof.
  unfold PyStr.zfill.
  destruct (Nat.leb_spec w (String.length s)) as [Hle|Hlt]; [lia|].
  assert (String.length (PyStr.zeros (w - String.length s) ++ s)
          = Nat.max w (String.length s)) as Hplain.
  { rewrite string_length_app, length_zeros. lia. }
  destruct s as [|c s]; [exact Hplain|].
  assert (forall sign : ascii,
             String.length
               (String sign
                  (PyStr.zeros (w - String.length (String c s)) ++ s))
             = Nat.max w (String.length (String c s))) as Hsign.
  { intros sign. simpl String.length at 1.
    rewrite string_length_app, length_zeros. simpl in *. lia. }
  destruct c as [[] [] [] [] [] [] [] []]; first [apply Hsign | exact Hplain].
Qed.

Section SortMore.

Import PyStr SortFilter.

Variable float_repr : string -> option string.
Variable date_parse : string -> option date.

Abbreviation get_value := (SortFilter.get_value float_repr date_parse).
Abbreviation make_key := (SortFilter.make_key float_repr date_parse).
Abbreviation iter := (SortFilter.__iter__ float_repr date_parse).

Lemma comprehension_pure {X Y} (f : X -> Y) (xs : list X) :
  comprehension (fun x => Ok (f x)) xs = Ok (map f xs).
Proof.
  induction xs as [|x xs IH]; simpl; [reflexivity | now rewrite IH].
Qed.

Lemma make_key_untagged (self : SortFilter.t) :
  sort_tags self = [] -> make_key self = fun row => Ok (values row).
Proof. unfold SortFilter.make_key. now intros ->. Qed.

(** X7. Without sort tags the filter never raises: it yields the rows of
    the source ordered by their raw values, compared as they are,
    without upper-casing. *)
Theorem sort_untagged (self : SortFilter.t) :
  sort_tags self = [] ->
  exists out,
    fst (iter self) = Ok out
    /\ Permutation out (Dataset.rows (source self))
    /\ (forall row, make_key self row = Ok (values row))
    /\ (if reverse self then descending (map values out)
        else ascending (map values out)).
Proof.
  intros Htags. rewrite iter_result.
  pose proof (make_key_untagged self Htags) as Hkey.
  destruct (sorted_spec (make_key self) (reverse self)
              (Dataset.rows (source self)))
    as (out & keys & Hs & Hp & _ & Hk & Ho).
  { intros row _. rewrite Hkey. now eexists. }
  exists out. split; [exact Hs|]. split; [exact Hp|].
  split; [intros row; now rewrite Hkey|].
  rewrite Hkey, comprehension_pure in Hk. now injection Hk as <-.
Qed.

(** X8. Sorting by patterns without a numeric or date suffix never raises,
    whatever the rows hold; every key has one component per pattern,
    and no component contains a lower-case letter. *)
Theorem sort_plain_tags (self : SortFilter.t) :
  (forall p, In p (sort_tags self) ->
             numeric_suffix p = false /\ endswith (tag p) "_date" = false) ->
  sort_tags self <> [] ->
  exists out keys,
    fst (iter self) = Ok out
    /\ Permutation out (Dataset.rows (source self))
    /\ comprehension (make_key self) out = Ok keys
    /\ forall key, In key keys ->
         List.length key = List.length (sort_tags self)
         /\ forall k, In k key -> upper k = k.
Proof.
  intros Hplain Hne. rewrite iter_result.
  assert (forall row, make_key self row
                      = comprehension (get_value row) (sort_tags self))
    as Hkey.
  { intros row. unfold SortFilter.make_key.
    destruct (sort_tags self); [congruence | reflexivity]. }
  destruct (sorted_spec (make_key self) (reverse self)
              (Dataset.rows (source self)))
    as (out & keys & Hs & Hp & _ & Hk & _).
  { intros row _. rewrite Hkey. apply comprehension_ok. intros p Hp.
    destruct (Hplain p Hp) as [Hn Hd].
    rewrite (get_value_plain float_repr date_parse row p Hn Hd). now eexists. }
  exists out, keys. repeat (split; [assumption|]).
  intros key Hin. apply comprehension_Forall2 in Hk.
  assert (exists row, make_key self row = Ok key) as [row Hrow].
  { clear - Hk Hin. induction Hk as [|row key' rows keys' Hrow _ IH];
      [destruct Hin|].
    destruct Hin as [->|Hin]; [now exists row | now apply IH]. }
  rewrite Hkey in Hrow. apply comprehension_Forall2 in Hrow.
  split.
  - symmetry. eapply Forall2_length, Hrow.
  - intros k Hk'. clear - Hrow Hk'.
    induction Hrow as [|p k' ps ks Hp _ IH]; [destruct Hk'|].
    destruct Hk' as [->|Hk'];
      [now apply (get_value_upper float_repr date_parse row p) | now apply IH].
Qed.

(** X9. Sorting the output of a filter again by the same tags gives what
    sorting its source gives, in either direction: a second sort in the
    same direction changes nothing, and one in the other direction is
    the same as sorting the source in that direction. *)
Theorem sort_resort (self : SortFilter.t) (out : list Row) (reverse' : bool) :
  fst (iter self) = Ok out ->
  fst (iter (__init__ (as_source self out) (sort_tags self) reverse'))
  = fst (iter (__init__ (source self) (sort_tags self) reverse'))
  /\ fst (iter (__init__ (as_source self out) (sort_tags self) (reverse self)))
     = Ok out.
Proof.
  rewrite !iter_result. intros Hout.
  change (sorted (make_key self) (reverse self) (Dataset.rows (source self))
          = Ok out) in Hout.
  pose proof (sorted_resort (make_key self) (reverse self) reverse' _ _ Hout)
    as Hre.
  pose proof (sorted_resort (make_key self) (reverse self) (reverse self)
                _ _ Hout) as Hsame.
  split; [exact Hre|]. rewrite <- Hout. exact Hsame.
Qed.

(** X10. When no two rows of the source have the same key, the output does
    not depend on the order of the rows in the source. *)
Theorem sort_distinct_keys (source source' : Dataset.t)
  (tags : list TagPattern) (reverse : bool) (keys : list (list string)) :
  Permutation (Dataset.rows source) (Dataset.rows source') ->
  comprehension (make_key (__init__ source tags reverse))
    (Dataset.rows source) = Ok keys ->
  List.NoDup keys ->
  fst (iter (__init__ source' tags reverse))
  = fst (iter (__init__ source tags reverse)).
Proof.
  intros Hp Hk Hnd. rewrite !iter_result.
  exact (sorted_perm_distinct (make_key (__init__ source tags reverse))
           reverse _ _ keys Hp Hk Hnd).
Qed.

End SortMore.

Section SortNumeric.

Import PyStr SortFilter.

Variable float_repr : string -> option string.
Variable date_parse : string -> option date.

Abbreviation get_value := (SortFilter.get_value float_repr date_parse).

(** X11. Natural numbers below [10 ^ 12] written as plain numerals, which
    [float] and [str] turn into the numeral followed by [".0"], get
    keys that are ordered as the numbers are. *)
Theorem numeric_order_naturals (row row' : Row) (p : TagPattern) (n m : N) :
  numeric_suffix p = true ->
  (n < 10 ^ 12)%N -> (m < 10 ^ 12)%N ->
  float_repr (numeral n) = Some (numeral n ++ ".0")%string ->
  float_repr (numeral m) = Some (numeral m ++ ".0")%string ->
  pattern_get_value p row = PyStr (numeral n) ->
  pattern_get_value p row' = PyStr (numeral m) ->
  exists kn km,
    get_value row p = Ok kn /\ get_value row' p = Ok km
    /\ String.length kn = 15 /\ String.length km = 15
    /\ String.compare kn km = N.compare n m.
Proof.
  intros Hp Hn Hm Hfn Hfm Hv Hv'.
  apply to_nat_below in Hn, Hm.
  exists (fixed_digits 13 (N.to_nat n) ++ ".0")%string,
    (fixed_digits 13 (N.to_nat m) ++ ".0")%string.
  rewrite (get_value_numeric float_repr date_parse row p _ Hp Hv), Hfn.
  rewrite (get_value_numeric float_repr date_parse row' p _ Hp Hv'), Hfm.
  rewrite !numeral_decimal, (zfill_decimal _ Hn), (zfill_decimal _ Hm).
  rewrite !upper_app, !upper_fixed_digits.
  split; [reflexivity|]. split; [reflexivity|].
  rewrite !string_length_app, !length_fixed_digits.
  split; [reflexivity|]. split; [reflexivity|].
  rewrite (padded_numeral_compare _ _ Hn Hm). symmetry.
  apply N2Nat.inj_compare.
Qed.

(** X12. The key of a number is at least fifteen characters long and longer
    only when the float prints longer: [zfill] pads and never cuts, so
    the keys are of one width only as long as every float prints in
    fifteen characters or fewer. *)
Theorem numeric_key_length (row : Row) (p : TagPattern) (s r : string) :
  numeric_suffix p = true ->
  pattern_get_value p row = PyStr s ->
  float_repr s = Some r ->
  exists k,
    get_value row p = Ok k
    /\ String.length k = Nat.max 15 (String.length r).
Proof.
  intros Hp Hv Hf.
  rewrite (get_value_numeric float_repr date_parse row p s Hp Hv), Hf.
  eexists. split; [reflexivity|].
  now rewrite length_upper, length_zfill.
Qed.

(** X13. A number that prints with a minus sign is keyed before every number
    that prints with a leading digit: the sign stays in front of the
    padding and is smaller than the digits. *)
Theorem numeric_negative_first (row row' : Row) (p : TagPattern)
  (s s' r r' : string) (d : ascii) :
  numeric_suffix p = true ->
  pattern_get_value p row = PyStr s ->
  pattern_get_value p row' = PyStr s' ->
  float_repr s = Some (String "-" r) ->
  float_repr s' = Some (String d r') ->
  is_digit d = true ->
  exists k k',
    get_value row p = Ok k /\ get_value row' p = Ok k'
    /\ py_ltb k k' = true.
Proof.
  intros Hp Hv Hv' Hf Hf' Hd.
  rewrite (get_value_numeric float_repr date_parse row p s Hp Hv), Hf.
  rewrite (get_value_numeric float_repr date_parse row' p s' Hp Hv'), Hf'.
  eexists _, _. split; [reflexivity|]. split; [reflexivity|].
  assert (exists t, zfill 15 (String "-" r) = String "-" t) as [t ->].
  { unfold zfill. destruct (15 <=? String.length (String "-" r))%nat;
      now eexists. }
  assert (exists d' t', zfill 15 (String d r') = String d' t'
                        /\ is_digit d' = true) as (d' & t' & -> & Hd').
  { unfold zfill. destruct (15 <=? String.length (String d r'))%nat eqn:E.
    - now exists d, r'.
    - assert (exists z, zeros (15 - String.length (String d r'))
                        = String "0" z) as [z Hz].
      { apply Nat.leb_gt in E.
        destruct (15 - String.length (String d r')) as [|k] eqn:Ek; [lia|].
        now eexists. }
      rewrite Hz.
      destruct d as [[] [] [] [] [] [] [] []]; try discriminate Hd;
        rewrite append_cons; now eexists _, _. }
  simpl. unfold String.ltb. simpl.
  destruct d' as [[] [] [] [] [] [] [] []]; try discriminate Hd'; reflexivity.
Qed.

End SortNumeric.

Lemma sort_untagged_witness :
  exists out,
    fst (example_iter (SortFilter.__init__ (sort_source tied_rows) [] false))
    = Ok out
    /\ Permutation out tied_rows
    /\ (forall row,
           SortFilter.make_key decimal_float_repr iso_date_parse
             (SortFilter.__init__ (sort_source tied_rows) [] false) row
           = Ok (values row))
    /\ ascending (map values out).
Proof.
  apply (sort_untagged decimal_float_repr iso_date_parse
           (SortFilter.__init__ (sort_source tied_rows) [] false)).
  reflexivity.
Defined.

Lemma sort_plain_tags_witness :
  exists out keys,
    fst (example_iter (tied_filter false)) = Ok out
    /\ Permutation out tied_rows
    /\ comprehension example_key out = Ok keys
    /\ forall key, In key keys ->
         List.length key = 1 /\ forall k, In k key -> PyStr.upper k = k.
Proof.
  apply (sort_plain_tags decimal_float_repr iso_date_parse (tied_filter false)).
  - intros p [<-|[]]. split; reflexivity.
  - discriminate.
Defined.

Lemma sort_resort_witness :
  fst (example_iter
         (SortFilter.__init__
            (as_source (tied_filter false)
               [ sort_row ["ACF"; "2"; "2021-06-30"];
                 sort_row ["Oxfam"; "3"; "2020-01-15"];
                 sort_row ["OXFAM"; "1"; "2019-12-01"] ])
            [hashtag "#org"] true))
  = fst (example_iter (tied_filter true))
  /\ fst (example_iter
            (SortFilter.__init__
               (as_source (tied_filter false)
                  [ sort_row ["ACF"; "2"; "2021-06-30"];
                    sort_row ["Oxfam"; "3"; "2020-01-15"];
                    sort_row ["OXFAM"; "1"; "2019-12-01"] ])
               [hashtag "#org"] false))
     = Ok [ sort_row ["ACF"; "2"; "2021-06-30"];
            sort_row ["Oxfam"; "3"; "2020-01-15"];
            sort_row ["OXFAM"; "1"; "2019-12-01"] ].
Proof.
  apply (sort_resort decimal_float_repr iso_date_parse (tied_filter false)
           [ sort_row ["ACF"; "2"; "2021-06-30"];
             sort_row ["Oxfam"; "3"; "2020-01-15"];
             sort_row ["OXFAM"; "1"; "2019-12-01"] ] true).
  reflexivity.
Defined.

Lemma sort_distinct_keys_witness :
  fst (example_iter
         (SortFilter.__init__ (sort_source (List.rev distinct_rows))
            [hashtag "#org"] false))
  = fst (example_iter
           (SortFilter.__init__ (sort_source distinct_rows)
              [hashtag "#org"] false)).
Proof.
  apply (sort_distinct_keys decimal_float_repr iso_date_parse
           (sort_source distinct_rows) (sort_source (List.rev distinct_rows))
           [hashtag "#org"] false [["OXFAM"]; ["ACF"]; ["MSF"]]).
  - apply Permutation_rev.
  - reflexivity.
  - repeat constructor; simpl; intuition discriminate.
Defined.

Lemma numeric_order_naturals_witness :
  exists kn km,
    SortFilter.get_value decimal_float_repr iso_date_parse
      (sort_row ["org"; "2"; "2020-01-01"]) (hashtag "#value_num") = Ok kn
    /\ SortFilter.get_value decimal_float_repr iso_date_parse
         (sort_row ["org"; "10"; "2020-01-01"]) (hashtag "#value_num") = Ok km
    /\ String.length kn = 15 /\ String.length km = 15
    /\ String.compare kn km = N.compare 2 10.
Proof.
  apply (numeric_order_naturals decimal_float_repr iso_date_parse
           (sort_row ["org"; "2"; "2020-01-01"])
           (sort_row ["org"; "10"; "2020-01-01"])
           (hashtag "#value_num") 2 10); reflexivity.
Defined.

Lemma numeric_key_length_witness :
  exists k,
    SortFilter.get_value decimal_float_repr iso_date_parse
      (sort_row ["org"; "-0.000123456789"; "2020-01-01"])
      (hashtag "#value_num") = Ok k
    /\ String.length k = Nat.max 15 (String.length "-0.000123456789").
Proof.
  apply (numeric_key_length decimal_float_repr iso_date_parse
           (sort_row ["org"; "-0.000123456789"; "2020-01-01"])
           (hashtag "#value_num") "-0.000123456789" "-0.000123456789");
    reflexivity.
Defined.

Lemma numeric_negative_first_witness :
  exists k k',
    SortFilter.get_value decimal_float_repr iso_date_parse
      (sort_row ["org"; "-5"; "2020-01-01"]) (hashtag "#value_num") = Ok k
    /\ SortFilter.get_value decimal_float_repr iso_date_parse
         (sort_row ["org"; "3"; "2020-01-01"]) (hashtag "#value_num") = Ok k'
    /\ py_ltb k k' = true.
Proof.
  apply (numeric_negative_first decimal_float_repr iso_date_parse
           (sort_row ["org"; "-5"; "2020-01-01"])
           (sort_row ["org"; "3"; "2020-01-01"])
           (hashtag "#value_num") "-5" "3" "5.0" ".0" "3"); reflexivity.
Defined.

(** ** Errors and blanks *)

Section SortedOrder.

Context {K A : Type} `{PyOrdLaws K}.

Variable key : A -> result K.

Lemma comprehension_first_raise {X Y} (f : X -> result Y)
  (pre post : list X) (x : X) e :
  (forall y, In y pre -> exists z, f y = Ok z) ->
  f x = Raise e ->
  comprehension f (pre ++ x :: post) = Raise e.
Proof.
  intros Hpre Hx. induction pre as [|y pre IH]; simpl.
  - now rewrite Hx.
  - destruct (Hpre y (or_introl eq_refl)) as [z ->]. simpl.
    rewrite IH; [reflexivity|]. intros; apply Hpre; now right.
Qed.

(** The exception of the first element whose key cannot be computed is
    the one [sorted] raises. *)
Lemma sorted_first_raise (reverse : bool) (pre post : list A) (x : A) e :
  (forall y, In y pre -> exists k, key y = Ok k) ->
  key x = Raise e ->
  sorted key reverse (pre ++ x :: post) = Raise e.
Proof.
  intros Hpre Hx. unfold sorted.
  rewrite (comprehension_first_raise (decorate key) pre post x e).
  - reflexivity.
  - intros y Hy. destruct (Hpre y Hy) as [k Hk].
    exists (k, y). unfold decorate. now rewrite Hk.
  - unfold decorate. now rewrite Hx.
Qed.

(** In an ascending list the elements of a smallest key come first. *)
Lemma ascending_min_prefix (kmin : K) (l : list (K * A)) :
  ascending (map fst l) ->
  (forall p, In p l -> py_ltb (fst p) kmin = false) ->
  l = List.filter (fun p => py_eqb kmin (fst p)) l
      ++ List.filter (fun p => negb (py_eqb kmin (fst p))) l.
Proof.
  unfold ascending. induction l as [|p l IH]; simpl; intros Hs Hmin;
    [reflexivity|].
  apply StronglySorted_inv in Hs as [Hs Hp].
  destruct (py_eqb kmin (fst p)) eqn:E; simpl.
  - f_equal. apply IH; [exact Hs | intros; apply Hmin; now right].
  - assert (forall q, In q l -> py_eqb kmin (fst q) = false) as Hrest.
    { intros q Hq. apply py_eqb_false. intros ->.
      rewrite List.Forall_forall in Hp.
      specialize (Hp (fst q) (in_map fst _ _ Hq)). unfold key_le in Hp.
      apply py_eqb_false in E. apply E.
      apply py_ltb_total; [exact Hp | apply Hmin; now left]. }
    assert (List.filter (fun q => py_eqb kmin (fst q)) l = []) as ->.
    { clear - Hrest. induction l as [|q l IH]; simpl; [reflexivity|].
      rewrite (Hrest q (or_introl eq_refl)).
      apply IH. intros; apply Hrest; now right. }
    simpl. f_equal.
    clear - Hrest. induction l as [|q l IH]; simpl; [reflexivity|].
    rewrite (Hrest q (or_introl eq_refl)). simpl. f_equal.
    apply IH. intros; apply Hrest; now right.
Qed.

Lemma descending_min_suffix (kmin : K) (l : list (K * A)) :
  descending (map fst l) ->
  (forall p, In p l -> py_ltb (fst p) kmin = false) ->
  l = List.filter (fun p => negb (py_eqb kmin (fst p))) l
      ++ List.filter (fun p => py_eqb kmin (fst p)) l.
Proof.
  intros Hs Hmin.
  assert (ascending (map fst (List.rev l))) as Hasc.
  { rewrite map_rev. unfold ascending, descending in *.
    clear - Hs. induction Hs as [|k ks Hs IH Hk]; simpl; [constructor|].
    apply StronglySorted_app_2;
      try match goal with
          | |- StronglySorted _ (List.rev _) => exact IH
          | |- StronglySorted _ [_] => repeat constructor
          end.
    intros a b Ha Hb. apply list_elem_of_In in Ha, Hb.
    destruct Hb as [<-|[]]. apply in_rev in Ha.
    rewrite List.Forall_forall in Hk. now apply Hk. }
  pose proof (ascending_min_prefix kmin (List.rev l) Hasc) as Hrev.
  rewrite !filter_rev, <- rev_app_distr in Hrev.
  apply (f_equal (@List.rev _)) in Hrev; [|intros p Hp; apply Hmin;
                                            now apply in_rev].
  now rewrite !rev_involutive in Hrev.
Qed.

Lemma filter_well_keyed_not (k : K) (l : list (K * A)) :
  well_keyed key l ->
  List.filter (fun x => negb (has_key key k x)) (map snd l)
  = map snd (List.filter (fun p => negb (py_eqb k (fst p))) l).
Proof.
  induction 1 as [|p l Hp _ IH]; simpl; [reflexivity|].
  unfold has_key at 1. rewrite Hp.
  destruct (py_eqb k (fst p)); simpl; now rewrite IH.
Qed.

(** What [sorted] returns, split at a smallest key: the elements of
    that key, in the order of the input, are at the front, or at the
    back under [reverse]. *)
Lemma sorted_min_first (reverse : bool) (kmin : K) (xs out : list A) :
  sorted key reverse xs = Ok out ->
  (forall x k, In x xs -> key x = Ok k -> py_ltb k kmin = false) ->
  out = if reverse
        then List.filter (fun x => negb (has_key key kmin x)) out
             ++ List.filter (has_key key kmin) xs
        else List.filter (has_key key kmin) xs
             ++ List.filter (fun x => negb (has_key key kmin x)) out.
Proof.
  unfold sorted.
  destruct (comprehension (decorate key) xs) as [keyed|] eqn:Hk; simpl;
    [|discriminate].
  intros [= <-] Hmin. destruct (decorate_spec key xs keyed Hk) as [Hxs Hw].
  destruct (sort_decorated_keyed reverse keyed) as (l' & -> & Hp & Hf & Ho).
  assert (well_keyed key l') as Hw'
    by (eapply Permutation_Forall; [symmetry; exact Hp | exact Hw]).
  assert (forall p, In p l' -> py_ltb (fst p) kmin = false) as Hmin'.
  { intros p Hp'. assert (In p keyed) as Hin
        by (eapply Permutation_in; [exact Hp | exact Hp']).
    unfold well_keyed in Hw. rewrite List.Forall_forall in Hw.
    apply (Hmin (snd p)); [|now apply Hw].
    rewrite <- Hxs. now apply in_map. }
  assert (List.filter (has_key key kmin) xs
          = map snd (List.filter (fun p => py_eqb kmin (fst p)) l')) as ->.
  { rewrite <- Hxs, (filter_well_keyed key kmin keyed Hw), <- Hf. reflexivity. }
  rewrite (filter_well_keyed_not kmin l' Hw').
  destruct reverse; rewrite <- List.map_app; f_equal.
  - now apply descending_min_suffix.
  - now apply ascending_min_prefix.
Qed.

End SortedOrder.

Section SortErrorsAndBlanks.

Import PyStr SortFilter.

Variable float_repr : string -> option string.
Variable date_parse : string -> option date.

Abbreviation get_value := (SortFilter.get_value float_repr date_parse).
Abbreviation make_key := (SortFilter.make_key float_repr date_parse).
Abbreviation iter := (SortFilter.__iter__ float_repr date_parse).

(** X14. The keys are computed in the order of the source: the filter
    raises the exception of the first row whose key cannot be computed,
    whatever the rows after it hold and whichever direction is asked
    for. *)
Theorem sort_first_error (self : SortFilter.t) (pre post : list Row)
  (row : Row) (e : exn) :
  Dataset.rows (source self) = pre ++ row :: post ->
  (forall r, In r pre -> exists k, make_key self r = Ok k) ->
  make_key self row = Raise e ->
  fst (iter self) = Raise e.
Proof.
  intros Hrows Hpre Hrow. rewrite iter_result, Hrows.
  now apply sorted_first_raise.
Qed.

Lemma comprehension_map_in {X Y} (f : X -> result Y) (g : X -> Y)
  (xs : list X) :
  (forall x, In x xs -> f x = Ok (g x)) -> comprehension f xs = Ok (map g xs).
Proof.
  induction xs as [|x xs IH]; simpl; intros Hf; [reflexivity|].
  rewrite (Hf x (or_introl eq_refl)). simpl.
  rewrite IH; [reflexivity|]. intros; apply Hf; now right.
Qed.

Lemma make_key_plain (self : SortFilter.t) (row : Row) :
  (forall p, In p (sort_tags self) ->
             numeric_suffix p = false /\ endswith (tag p) "_date" = false) ->
  sort_tags self <> [] ->
  make_key self row
  = Ok (map (fun p => upper_or_empty (pattern_get_value p row))
          (sort_tags self)).
Proof.
  intros Hplain Hne. unfold SortFilter.make_key.
  destruct (sort_tags self) as [|p0 ps] eqn:Etags; [congruence|].
  rewrite <- Etags in *. apply comprehension_map_in. intros p Hp.
  destruct (Hplain p Hp) as [Hn Hd].
  apply (get_value_plain float_repr date_parse row p Hn Hd).
Qed.

Lemma blank_key_least (tags : list TagPattern) (key : list string) :
  List.length key = List.length tags ->
  py_ltb key (blank_key tags) = false.
Proof.
  simpl. revert key. induction tags as [|t tags IH]; intros [|k key]; simpl;
    try discriminate; [reflexivity|].
  intros [= Hl]. destruct (String.eqb k "") eqn:E; [now apply IH|].
  now destruct k.
Qed.

Lemma upper_or_empty_blank (v : pyval) :
  upper_or_empty v = "" <-> v = PyNone \/ v = PyStr "".
Proof.
  destruct v as [|[|c s]]; simpl.
  - split; [now left | reflexivity].
  - split; [now right | reflexivity].
  - split; [discriminate | intros [|]; discriminate].
Qed.

(** X15. Sorting by patterns without a suffix puts the rows that have no
    value, or an empty one, under every sort tag in front, in the order
    of the source, and at the back under [reverse]. *)
Theorem sort_blanks_first (self : SortFilter.t) :
  (forall p, In p (sort_tags self) ->
             numeric_suffix p = false /\ endswith (tag p) "_date" = false) ->
  sort_tags self <> [] ->
  exists out,
    fst (iter self) = Ok out
    /\ (forall row,
           has_key (make_key self) (blank_key (sort_tags self)) row = true
           <-> blank_under (sort_tags self) row)
    /\ out
       = if reverse self
         then List.filter
                (fun row => negb (has_key (make_key self)
                                    (blank_key (sort_tags self)) row)) out
              ++ List.filter
                   (has_key (make_key self) (blank_key (sort_tags self)))
                   (Dataset.rows (source self))
         else List.filter
                (has_key (make_key self) (blank_key (sort_tags self)))
                (Dataset.rows (source self))
              ++ List.filter
                   (fun row => negb (has_key (make_key self)
                                       (blank_key (sort_tags self)) row)) out.
Proof.
  intros Hplain Hne.
  pose proof (fun row => make_key_plain self row Hplain Hne) as Hkey.
  destruct (sorted_spec (make_key self) (reverse self)
              (Dataset.rows (source self)))
    as (out & _ & Hs & _).
  { intros row _. rewrite Hkey. now eexists. }
  exists out. rewrite iter_result. split; [exact Hs|]. split.
  - intros row. unfold has_key. rewrite Hkey.
    change (py_eqb ?a ?b) with (seq_eqb a b). rewrite seq_eqb_eq.
    unfold blank_key, blank_under. rewrite map_ext_in_iff.
    split; intros Hall p Hp; specialize (Hall p Hp);
      [apply upper_or_empty_blank; now symmetry
      |symmetry; now apply upper_or_empty_blank].
  - apply (sorted_min_first (make_key self) (reverse self) _ _ _ Hs).
    intros row k _. rewrite Hkey. intros [= <-].
    apply blank_key_least. apply length_map.
Qed.

End SortErrorsAndBlanks.

Lemma sort_first_error_witness :
  fst (example_iter (dated_filter faulty_rows)) = Raise ValueError.
Proof.
  apply (sort_first_error decimal_float_repr iso_date_parse
           (dated_filter faulty_rows)
           [sort_row ["Oxfam"; "3"; "2020-01-15"]] [short_row]
           (sort_row ["ACF"; "2"; "unknown"]) ValueError).
  - reflexivity.
  - intros r [<-|[]]. eexists. reflexivity.
  - reflexivity.
Defined.

Lemma sort_blanks_first_witness :
  exists out,
    fst (example_iter
           (SortFilter.__init__ (sort_source blank_rows) [hashtag "#org"]
              false)) = Ok out
    /\ (forall row,
           has_key example_key (blank_key [hashtag "#org"]) row = true
           <-> blank_under [hashtag "#org"] row)
    /\ out
       = List.filter (has_key example_key (blank_key [hashtag "#org"]))
           blank_rows
         ++ List.filter
              (fun row => negb (has_key example_key
                                  (blank_key [hashtag "#org"]) row)) out.
Proof.
  apply (sort_blanks_first decimal_float_repr iso_date_parse
           (SortFilter.__init__ (sort_source blank_rows) [hashtag "#org"]
              false)).
  - intros p [<-|[]]. split; reflexivity.
  - discriminate.
Defined.
